(** * ChatLinkUp: the room synchronisation engine

    A shallow embedding of the chat page ([Chat], the component that owns
    the message list) and of the composer ([ChatInput]) of the ChatLinkUp
    client, together with a small executable model of the hosted database
    the two components talk to.  Component state is threaded explicitly
    through a state-and-exception monad; every request sent to the
    database is recorded, so that statements such as "no request is made"
    are statements about the final state. *)

From Stdlib Require Import List String Ascii Bool NArith Lia.
From Stdlib Require Import DecimalString Permutation.
From Stdlib Require OrderedTypeEx.
Import ListNotations.
Local Open Scope string_scope.
Local Open Scope list_scope.
Local Open Scope N_scope.

(* ================================================================== *)
(** ** JavaScript strings *)
(* ================================================================== *)

(** Strings are sequences of code units below 256.  In that range
    [String.prototype.trim] strips the white space and line terminator
    code units: TAB, LF, VT, FF, CR (9 to 13), SPACE (32) and the
    no-break space U+00A0 (160). *)
Definition is_whitespace (c : ascii) : bool :=
  let n := N_of_ascii c in
  ((9 <=? n) && (n <=? 13)) || (n =? 32) || (n =? 160).

(** The no-break space. *)
Definition NBSP : ascii := ascii_of_N 160.

Fixpoint trimStart (s : string) : string :=
  match s with
  | EmptyString => EmptyString
  | String c r => if is_whitespace c then trimStart r else s
  end.

Fixpoint trimEnd (s : string) : string :=
  match s with
  | EmptyString => EmptyString
  | String c r =>
      match trimEnd r with
      | EmptyString => if is_whitespace c then EmptyString else String c EmptyString
      | r' => String c r'
      end
  end.

Definition trim (s : string) : string := trimEnd (trimStart s).

(** Truthiness of a string: every string but the empty one. *)
Definition truthy (s : string) : bool := negb (s =? EmptyString)%string.

(** [String(n)] for a non-negative integer. *)
Definition decimal (n : N) : string := NilZero.string_of_uint (N.to_uint n).

(* ================================================================== *)
(** ** Records of [types/supabase] and of the browser *)
(* ================================================================== *)

Module PublicMessage.
Record t : Type := mk {
  id : string;
  room_id : string;
  sender_name : string;
  content : string;
  created_at : string;
  has_attachment : option bool;
  attachment_path : option string;
  attachment_type : option string
}.
End PublicMessage.

Module ChatRoom.
Record t : Type := mk {
  id : string;
  name : string;
  slug : string;
  created_at : string
}.
End ChatRoom.

(** The part of a browser [File] that the composer reads. *)
Module File.
Record t : Type := mk {
  name : string;
  size : N;
  type : string
}.
End File.

(** The optional second argument of [onSendMessage]. *)
Module AttachmentInfo.
Record t : Type := mk {
  path : string;
  type : string
}.
End AttachmentInfo.

(** The object literal [messageData] built by [sendMessage]. *)
Module MessageData.
Record t : Type := mk {
  room_id : string;
  sender_name : string;
  content : string;
  has_attachment : option bool;
  attachment_path : option string;
  attachment_type : option string
}.
End MessageData.

(** A thrown or returned error value, identified by its message. *)
Record Error : Type := mkError { error_message : string }.

(** An argument of [toast]. *)
Record Toast : Type := mkToast {
  title : string;
  description : string;
  variant : option string
}.

(** The payload handed to a [postgres_changes] listener: [INSERT]
    carries [payload.new], [DELETE] carries [payload.old.id]; the listener
    is registered for every event, so updates reach it too. *)
Inductive Payload : Type :=
| INSERT (new : PublicMessage.t)
| UPDATE (new : PublicMessage.t)
| DELETE (old_id : string).

(* ================================================================== *)
(** ** The hosted database, as the client sees it *)
(* ================================================================== *)

(** The service is an external collaborator.  It is modelled by its
    tables, the storage bucket, the change events it has emitted, and an
    oracle [faults] telling which of the coming requests fail.  A request
    never throws: it answers with an error or with data, as the client
    library does. *)

Inductive Request : Type :=
| SelectRooms (slug : string)
| InsertRoom (name slug : string)
| SelectMessages (room_id : string)
| InsertMessage (row : MessageData.t)
| DeleteMessage (id : string)
| Upload (bucket path : string)
| Subscribe (topic : string).

Record Backend : Type := mkBackend {
  chat_rooms : list ChatRoom.t;
  public_messages : list PublicMessage.t;
  chat_attachments : list (string * File.t);
  serial : N;
  faults : list bool;
  requests : list Request;
  changes : list Payload
}.

Definition with_chat_rooms (v : list ChatRoom.t) (b : Backend) : Backend :=
  mkBackend v (public_messages b) (chat_attachments b) (serial b)
            (faults b) (requests b) (changes b).
Definition with_public_messages (v : list PublicMessage.t) (b : Backend) : Backend :=
  mkBackend (chat_rooms b) v (chat_attachments b) (serial b)
            (faults b) (requests b) (changes b).
Definition with_chat_attachments (v : list (string * File.t)) (b : Backend) : Backend :=
  mkBackend (chat_rooms b) (public_messages b) v (serial b)
            (faults b) (requests b) (changes b).
Definition with_serial (v : N) (b : Backend) : Backend :=
  mkBackend (chat_rooms b) (public_messages b) (chat_attachments b) v
            (faults b) (requests b) (changes b).
Definition with_faults (v : list bool) (b : Backend) : Backend :=
  mkBackend (chat_rooms b) (public_messages b) (chat_attachments b) (serial b)
            v (requests b) (changes b).
Definition with_requests (v : list Request) (b : Backend) : Backend :=
  mkBackend (chat_rooms b) (public_messages b) (chat_attachments b) (serial b)
            (faults b) v (changes b).
Definition with_changes (v : list Payload) (b : Backend) : Backend :=
  mkBackend (chat_rooms b) (public_messages b) (chat_attachments b) (serial b)
            (faults b) (requests b) v.

(** Timestamps are fixed-width, so that the order of the strings is the
    order of the instants. *)
Fixpoint zeros (k : nat) : string :=
  match k with
  | O => EmptyString
  | S k' => String "0" (zeros k')
  end.
Definition timestamp (n : N) : string :=
  let d := decimal n in (zeros (16 - String.length d) ++ d)%string.

(** [order('created_at', { ascending: true })]: a stable insertion sort on
    the column. *)
Fixpoint insert_by_created_at (m : PublicMessage.t) (l : list PublicMessage.t)
  : list PublicMessage.t :=
  match l with
  | [] => [m]
  | x :: r =>
      if String.ltb (PublicMessage.created_at m) (PublicMessage.created_at x)
      then m :: l
      else x :: insert_by_created_at m r
  end.
Definition order_by_created_at (l : list PublicMessage.t) : list PublicMessage.t :=
  fold_right insert_by_created_at [] (rev l).

Definition network_error : Error := mkError "Failed to fetch".

(** What each request does to the tables once it has reached the
    service. *)
Definition serve_select_rooms (slug : string) (b : Backend)
  : (Error + list ChatRoom.t) * Backend :=
  (inr (filter (fun r => (ChatRoom.slug r =? slug)%string) (chat_rooms b)), b).

Definition serve_insert_room (name slug : string) (b : Backend)
  : (Error + list ChatRoom.t) * Backend :=
  let row := ChatRoom.mk (decimal (serial b)) name slug (timestamp (serial b)) in
  (inr [row], with_serial (serial b + 1) (with_chat_rooms (chat_rooms b ++ [row]) b)).

Definition serve_select_messages (room_id : string) (b : Backend)
  : (Error + list PublicMessage.t) * Backend :=
  (inr (order_by_created_at
          (filter (fun m => (PublicMessage.room_id m =? room_id)%string)
                  (public_messages b))), b).

Definition serve_insert_message (d : MessageData.t) (b : Backend)
  : (Error + PublicMessage.t) * Backend :=
  let row := PublicMessage.mk (decimal (serial b)) (MessageData.room_id d)
               (MessageData.sender_name d) (MessageData.content d)
               (timestamp (serial b)) (MessageData.has_attachment d)
               (MessageData.attachment_path d) (MessageData.attachment_type d) in
  (inr row,
   with_changes (changes b ++ [INSERT row])
     (with_serial (serial b + 1)
        (with_public_messages (public_messages b ++ [row]) b))).

Definition serve_delete_message (id : string) (b : Backend)
  : (Error + unit) * Backend :=
  let gone := filter (fun m => (PublicMessage.id m =? id)%string) (public_messages b) in
  (inr tt,
   with_changes (changes b ++ map (fun m => DELETE (PublicMessage.id m)) gone)
     (with_public_messages
        (filter (fun m => negb (PublicMessage.id m =? id)%string) (public_messages b))
        b)).

(** [upload(path, file, { upsert: false })] refuses a path that is taken
    and otherwise answers with the stored path. *)
Definition serve_upload (path : string) (f : File.t) (b : Backend)
  : (Error + string) * Backend :=
  if existsb (fun e => (fst e =? path)%string) (chat_attachments b)
  then (inl (mkError "The resource already exists"), b)
  else (inr path, with_chat_attachments (chat_attachments b ++ [(path, f)]) b).

(** A request is logged and uses up one entry of the oracle; it is then
    either lost to a fault or served. *)
Definition exchange {A : Type} (r : Request)
    (serve : Backend -> (Error + A) * Backend) (b : Backend)
  : (Error + A) * Backend :=
  let b1 := with_faults (tl (faults b)) (with_requests (requests b ++ [r]) b) in
  if hd false (faults b) then (inl network_error, b1) else serve b1.

(* ================================================================== *)
(** ** Component state *)
(* ================================================================== *)

(** The [useState] cells of [Chat]. *)
Record ChatState : Type := mkChat {
  username : string;
  messages : list PublicMessage.t;
  isLoading : bool;
  defaultRoom : option ChatRoom.t
}.

(** The [useState] cells of [ChatInput]. *)
Record InputState : Type := mkInput {
  message : string;
  isSubmitting : bool;
  isRecording : bool;
  isProcessing : bool;
  isUploading : bool;
  attachment : option File.t
}.

(** One browser session facing the service: both components, the toasts
    shown so far, and the wall clock read by [Date.now()]. *)
Record App : Type := mkApp {
  supabase : Backend;
  chat : ChatState;
  input : InputState;
  toasts : list Toast;
  now : N
}.

Definition on_supabase (f : Backend -> Backend) (a : App) : App :=
  mkApp (f (supabase a)) (chat a) (input a) (toasts a) (now a).
Definition on_chat (f : ChatState -> ChatState) (a : App) : App :=
  mkApp (supabase a) (f (chat a)) (input a) (toasts a) (now a).
Definition on_input (f : InputState -> InputState) (a : App) : App :=
  mkApp (supabase a) (chat a) (f (input a)) (toasts a) (now a).
Definition on_toasts (f : list Toast -> list Toast) (a : App) : App :=
  mkApp (supabase a) (chat a) (input a) (f (toasts a)) (now a).

Definition with_messages (v : list PublicMessage.t) (c : ChatState) : ChatState :=
  mkChat (username c) v (isLoading c) (defaultRoom c).
Definition with_isLoading (v : bool) (c : ChatState) : ChatState :=
  mkChat (username c) (messages c) v (defaultRoom c).
Definition with_defaultRoom (v : option ChatRoom.t) (c : ChatState) : ChatState :=
  mkChat (username c) (messages c) (isLoading c) v.

Definition with_message (v : string) (i : InputState) : InputState :=
  mkInput v (isSubmitting i) (isRecording i) (isProcessing i) (isUploading i)
          (attachment i).
Definition with_isSubmitting (v : bool) (i : InputState) : InputState :=
  mkInput (message i) v (isRecording i) (isProcessing i) (isUploading i)
          (attachment i).
Definition with_isUploading (v : bool) (i : InputState) : InputState :=
  mkInput (message i) (isSubmitting i) (isRecording i) (isProcessing i) v
          (attachment i).
Definition with_attachment (v : option File.t) (i : InputState) : InputState :=
  mkInput (message i) (isSubmitting i) (isRecording i) (isProcessing i)
          (isUploading i) v.

(* ================================================================== *)
(** ** Handlers as state transformers that may throw *)
(* ================================================================== *)

Inductive Completion (A : Type) : Type :=
| Normal (a : A)
| Throw (e : Error).
Arguments Normal {A} a.
Arguments Throw {A} e.

Definition Task (A : Type) : Type := App -> Completion A * App.

Definition ret {A : Type} (a : A) : Task A := fun s => (Normal a, s).

Definition bind {A B : Type} (c : Task A) (k : A -> Task B) : Task B :=
  fun s =>
    match c s with
    | (Normal a, s') => k a s'
    | (Throw e, s') => (Throw e, s')
    end.

Definition throw {A : Type} (e : Error) : Task A := fun s => (Throw e, s).

(** [try { body } catch (error) { handler }] *)
Definition try_catch {A : Type} (body : Task A) (handler : Error -> Task A) : Task A :=
  fun s =>
    match body s with
    | (Normal a, s') => (Normal a, s')
    | (Throw e, s') => handler e s'
    end.

(** [try { body } finally { cleanup }]: the cleanup runs on either
    completion of the body, whose completion is then resumed unless the
    cleanup throws itself. *)
Definition try_finally {A : Type} (body : Task A) (cleanup : Task unit) : Task A :=
  fun s =>
    let (r, s') := body s in
    match cleanup s' with
    | (Normal _, s'') => (r, s'')
    | (Throw e, s'') => (Throw e, s'')
    end.

Definition get : Task App := fun s => (Normal s, s).
Definition modify (f : App -> App) : Task unit := fun s => (Normal tt, f s).

Declare Scope task_scope.
Delimit Scope task_scope with task.
Notation "x <- c ;; k" := (bind c (fun x => k))
  (at level 61, c at next level, right associativity) : task_scope.
Notation "c ;; k" := (bind c (fun _ => k))
  (at level 61, right associativity) : task_scope.
Local Open Scope task_scope.

(** The state setters and the effects the handlers use. *)
Definition setMessages (f : list PublicMessage.t -> list PublicMessage.t) : Task unit :=
  modify (on_chat (fun c => with_messages (f (messages c)) c)).
Definition setIsLoading (v : bool) : Task unit := modify (on_chat (with_isLoading v)).
Definition setDefaultRoom (r : option ChatRoom.t) : Task unit :=
  modify (on_chat (with_defaultRoom r)).
Definition setMessage (f : string -> string) : Task unit :=
  modify (on_input (fun i => with_message (f (message i)) i)).
Definition setIsSubmitting (v : bool) : Task unit := modify (on_input (with_isSubmitting v)).
Definition setIsUploading (v : bool) : Task unit := modify (on_input (with_isUploading v)).
Definition setAttachment (v : option File.t) : Task unit :=
  modify (on_input (with_attachment v)).

Definition toast (t : Toast) : Task unit := modify (on_toasts (fun l => l ++ [t])).

(** [await] of a request: the response is an error or the data. *)
Definition await {A : Type} (r : Request) (serve : Backend -> (Error + A) * Backend)
  : Task (Error + A) :=
  fun s =>
    let (resp, b) := exchange r serve (supabase s) in
    (Normal resp, on_supabase (fun _ => b) s).

(** [Date.now()]: reads the clock, which has advanced at the next
    reading. *)
Definition Date_now : Task N :=
  fun s => (Normal (now s),
            mkApp (supabase s) (chat s) (input s) (toasts s) (now s + 1)).

(** [channel(topic).on(...).subscribe(...)]: opening the channel is
    recorded; the service then calls the listener once per change
    event. *)
Definition subscribe (topic : string) : Task unit :=
  modify (on_supabase (fun b => with_requests (requests b ++ [Subscribe topic]) b)).

Definition is_none {A : Type} (o : option A) : bool :=
  match o with Some _ => false | None => true end.

(* ================================================================== *)
(** ** [Chat]: the page that owns the message list *)
(* ================================================================== *)

Definition DEFAULT_ROOM_NAME : string := "Public Chat Room".
Definition DEFAULT_ROOM_SLUG : string := "public".

Definition toast_load_failed : Toast :=
  mkToast "Error" "Failed to load the chat. Please try again." (Some "destructive").
Definition toast_send_failed : Toast :=
  mkToast "Error" "Failed to send your message. Please try again." (Some "destructive").
Definition toast_delete_ok : Toast :=
  mkToast "Success" "Message deleted successfully" None.
Definition toast_delete_failed : Toast :=
  mkToast "Error" "Failed to delete the message. Please try again." (Some "destructive").

(** The two updaters the change listener passes to [setMessages]. *)
Definition applyInsert (newMessage : PublicMessage.t) (prev : list PublicMessage.t)
  : list PublicMessage.t :=
  prev ++ [newMessage].

Definition applyDelete (deletedMessageId : string) (prev : list PublicMessage.t)
  : list PublicMessage.t :=
  filter (fun msg => negb (PublicMessage.id msg =? deletedMessageId)%string) prev.

(** The listener registered for [postgres_changes]. *)
Definition postgres_changes (payload : Payload) : Task unit :=
  match payload with
  | INSERT newMessage => setMessages (applyInsert newMessage)
  | DELETE deletedMessageId => setMessages (applyDelete deletedMessageId)
  | UPDATE _ => ret tt
  end.

Definition topic_of (room_id : string) : string :=
  ("public:public_messages:room_id=eq." ++ room_id)%string.

(** [initializeChat]: find the default room or create it, load its
    messages, open the channel.  [rooms[0]] of an empty array is
    [undefined], here [None]; reading [room.id] then throws. *)
Definition initializeChat : Task unit :=
  s <- get ;;
  if negb (truthy (username (chat s))) then ret tt else
  try_finally
    (try_catch
       (setIsLoading true ;;
        found <- await (SelectRooms DEFAULT_ROOM_SLUG)
                       (serve_select_rooms DEFAULT_ROOM_SLUG) ;;
        rooms <- match found with
                 | inl roomError => throw roomError
                 | inr rooms => ret rooms
                 end ;;
        room <- match rooms with
                | [] =>
                    created <- await (InsertRoom DEFAULT_ROOM_NAME DEFAULT_ROOM_SLUG)
                                 (serve_insert_room DEFAULT_ROOM_NAME DEFAULT_ROOM_SLUG) ;;
                    match created with
                    | inl createError => throw createError
                    | inr newRoom => ret (hd_error newRoom)
                    end
                | _ :: _ => ret (hd_error rooms)
                end ;;
        setDefaultRoom room ;;
        match room with
        | None => throw (mkError "Cannot read properties of undefined (reading 'id')")
        | Some room =>
            fetched <- await (SelectMessages (ChatRoom.id room))
                             (serve_select_messages (ChatRoom.id room)) ;;
            match fetched with
            | inl messageError => throw messageError
            | inr messageData =>
                setMessages (fun _ => messageData) ;;
                subscribe (topic_of (ChatRoom.id room))
            end
        end)
       (fun error => toast toast_load_failed))
    (setIsLoading false).

(** [sendMessage]: past the guard, [defaultRoom] is a room. *)
Definition sendMessage (text : string) (attachmentInfo : option AttachmentInfo.t)
  : Task unit :=
  s <- get ;;
  if (negb (truthy (trim text)) && is_none attachmentInfo)
     || is_none (defaultRoom (chat s))
  then ret tt
  else
    match defaultRoom (chat s) with
    | None => ret tt
    | Some room =>
        try_catch
          (let messageData :=
             match attachmentInfo with
             | None =>
                 MessageData.mk (ChatRoom.id room) (username (chat s)) text
                                None None None
             | Some info =>
                 MessageData.mk (ChatRoom.id room) (username (chat s)) text
                                (Some true) (Some (AttachmentInfo.path info))
                                (Some (AttachmentInfo.type info))
             end in
           sent <- await (InsertMessage messageData)
                         (serve_insert_message messageData) ;;
           match sent with
           | inl error => throw error
           | inr _ => ret tt
           end)
          (fun error => toast toast_send_failed ;; throw error)
    end.

(** [deleteMessage]: [defaultRoom?.id] of no room is [undefined], which
    the query builder writes into the filter as text. *)
Definition deleteMessage (messageId : string) : Task unit :=
  try_catch
    (deleted <- await (DeleteMessage messageId) (serve_delete_message messageId) ;;
     match deleted with
     | inl error => throw error
     | inr _ =>
         setMessages
           (fun prev =>
              filter (fun msg => negb (PublicMessage.id msg =? messageId)%string) prev) ;;
         s <- get ;;
         let room_id := match defaultRoom (chat s) with
                        | Some room => ChatRoom.id room
                        | None => "undefined"
                        end in
         refreshed <- await (SelectMessages room_id) (serve_select_messages room_id) ;;
         match refreshed with
         | inr updatedMessages => setMessages (fun _ => updatedMessages)
         | inl refreshError => ret tt
         end ;;
         toast toast_delete_ok
     end)
    (fun error => toast toast_delete_failed).

(** The [disabled] prop [Chat] hands to [ChatInput]. *)
Definition disabled (s : App) : bool :=
  isLoading (chat s) || is_none (defaultRoom (chat s)).

(* ================================================================== *)
(** ** [ChatInput]: the composer *)
(* ================================================================== *)

Definition toast_file_uploaded : Toast :=
  mkToast "File uploaded" "Your attachment has been uploaded successfully" None.
Definition toast_upload_failed : Toast :=
  mkToast "Upload failed" "Failed to upload attachment. Please try again."
          (Some "destructive").
Definition toast_processing : Toast :=
  mkToast "Processing" "Converting your speech to text..." None.
Definition toast_transcribed : Toast :=
  mkToast "Success" "Speech transcribed successfully" None.
Definition toast_no_speech : Toast :=
  mkToast "No speech detected" "Please try again and speak clearly" None.
Definition toast_recognition_failed : Toast :=
  mkToast "Error" "Speech recognition failed. Please try again." (Some "destructive").
Definition toast_file_too_large : Toast :=
  mkToast "File too large" "Please select a file smaller than 10MB" (Some "destructive").
Definition toast_invalid_type : Toast :=
  mkToast "Invalid file type" "Please select an image, PDF, text, or document file"
          (Some "destructive").

(** How a block inside [handleSubmit] ends: it falls through with a
    value, or it executes [return]. *)
Inductive Flow (A : Type) : Type :=
| Next (a : A)
| Return.
Arguments Next {A} a.
Arguments Return {A}.

(** [handleSubmit]; [onSendMessage] is [Chat]'s [sendMessage]. *)
Definition handleSubmit : Task unit :=
  s <- get ;;
  let message := message (input s) in
  let attachment := attachment (input s) in
  if (negb (truthy (trim message)) && is_none attachment)
     || isSubmitting (input s) || disabled s
  then ret tt
  else
    try_finally
      (try_catch
         (setIsSubmitting true ;;
          uploaded <-
            match attachment with
            | None => ret (Next None)
            | Some file =>
                setIsUploading true ;;
                try_finally
                  (try_catch
                     (stamp <- Date_now ;;
                      let fileName := (decimal stamp ++ "-" ++ File.name file)%string in
                      let filePath := fileName in
                      stored <- await (Upload "chat_attachments" filePath)
                                      (serve_upload filePath file) ;;
                      match stored with
                      | inl error => throw error
                      | inr path =>
                          toast toast_file_uploaded ;;
                          ret (Next (Some (AttachmentInfo.mk path (File.type file))))
                      end)
                     (fun error =>
                        toast toast_upload_failed ;;
                        setIsSubmitting false ;;
                        setIsUploading false ;;
                        ret Return))
                  (setIsUploading false)
            end ;;
          match uploaded with
          | Return => ret tt
          | Next attachmentInfo =>
              sendMessage (trim message) attachmentInfo ;;
              setMessage (fun _ => EmptyString) ;;
              setAttachment None
          end)
         (fun error => ret tt))
      (setIsSubmitting false).

(** What the speech recogniser resolves to: an array of chunks, a single
    object with a [text] property, or some other value. *)
Record AsrChunk : Type := mkChunk { text : string }.

Inductive AsrOutput : Type :=
| AsrArray (items : list AsrChunk)
| AsrObject (o : AsrChunk)
| AsrOther.

(** [processAudio]: loading the model, encoding the recording and running
    the recogniser are three awaits on the outside world; [inference] is
    what they come to, an exception or the recogniser's result. *)
Definition processAudio (inference : Error + AsrOutput) : Task unit :=
  try_catch
    (toast toast_processing ;;
     result <- match inference with
               | inl e => throw e
               | inr result => ret result
               end ;;
     let transcribedText :=
       match result with
       | AsrArray items =>
           match items with
           | first :: _ => if truthy (text first) then text first else EmptyString
           | [] => EmptyString
           end
       | AsrObject o => text o
       | AsrOther => EmptyString
       end in
     if truthy transcribedText
     then
       setMessage (fun prev =>
                     (prev ++ (if truthy prev then " " else EmptyString) ++ transcribedText)%string) ;;
       toast toast_transcribed
     else toast toast_no_speech)
    (fun error => toast toast_recognition_failed).

Definition allowedTypes : list string :=
  [ "image/jpeg"; "image/png"; "image/gif"; "image/webp";
    "application/pdf";
    "text/plain";
    "application/msword";
    "application/vnd.openxmlformats-officedocument.wordprocessingml.document" ].

(** [Array.prototype.includes] on strings. *)
Definition includes (l : list string) (x : string) : bool :=
  existsb (fun y => (y =? x)%string) l.

(** [handleFileInputChange]; the argument is [e.target.files?.[0]]. *)
Definition handleFileInputChange (file : option File.t) : Task unit :=
  match file with
  | None => ret tt
  | Some file =>
      if 10 * 1024 * 1024 <? File.size file
      then toast toast_file_too_large
      else if negb (includes allowedTypes (File.type file))
      then toast toast_invalid_type
      else setAttachment (Some file)
  end.

(* ================================================================== *)
(** ** The change feed, and what is asked of the message list *)
(* ================================================================== *)

(** The channel calls the listener once per event, in delivery order. *)
Fixpoint deliver (events : list Payload) : Task unit :=
  match events with
  | [] => ret tt
  | payload :: rest => postgres_changes payload ;; deliver rest
  end.

Definition ids (l : list PublicMessage.t) : list string := map PublicMessage.id l.

(** The order on [(created_at, id)]: by time, ties broken by id. *)
Definition key_leb (a b : PublicMessage.t) : bool :=
  match String.compare (PublicMessage.created_at a) (PublicMessage.created_at b) with
  | Lt => true
  | Eq => String.leb (PublicMessage.id a) (PublicMessage.id b)
  | Gt => false
  end.

Definition created_at_leb (a b : PublicMessage.t) : bool :=
  String.leb (PublicMessage.created_at a) (PublicMessage.created_at b).

(** A list is sorted when each entry is below its successor. *)
Fixpoint sorted_by (le : PublicMessage.t -> PublicMessage.t -> bool)
    (l : list PublicMessage.t) : bool :=
  match l with
  | [] => true
  | x :: r =>
      match r with
      | [] => true
      | y :: _ => le x y && sorted_by le r
      end
  end.

Definition last_message (l : list PublicMessage.t) : option PublicMessage.t :=
  hd_error (rev l).

(** The state reached by a handler, and the list it shows. *)
Definition run {A : Type} (c : Task A) (s : App) : App := snd (c s).
Definition snapshot (s : App) : list PublicMessage.t := messages (chat s).

(** Whether the [k]-th request from now on is lost. *)
Definition request_fails (k : nat) (s : App) : bool :=
  hd false (Nat.iter k (@tl bool) (faults (supabase s))).

(** The room filter of the re-fetch in [deleteMessage]. *)
Definition room_filter (s : App) : string :=
  match defaultRoom (chat s) with
  | Some room => ChatRoom.id room
  | None => "undefined"
  end.

(** The storage key [handleSubmit] builds for a file, and whether the
    bucket already holds an object under a key. *)
Definition upload_path (s : App) (file : File.t) : string :=
  (decimal (now s) ++ "-" ++ File.name file)%string.

Definition path_taken (path : string) (s : App) : bool :=
  existsb (fun e => (fst e =? path)%string) (chat_attachments (supabase s)).

(** The rooms the lookup of [initializeChat] finds. *)
Definition known_rooms (s : App) : list ChatRoom.t :=
  filter (fun r => (ChatRoom.slug r =? DEFAULT_ROOM_SLUG)%string)
         (chat_rooms (supabase s)).

(** A handler that leaves the message list alone, however it ends. *)
Definition keeps_snapshot {A : Type} (c : Task A) : Prop :=
  forall s, snapshot (snd (c s)) = snapshot s.

(* ================================================================== *)
(** ** Sample sessions *)
(* ================================================================== *)

Definition no_backend : Backend := mkBackend [] [] [] 0 [] [] [].

Definition fresh_session (user : string) (b : Backend) : App :=
  mkApp b (mkChat user [] true None) (mkInput EmptyString false false false false None) [] 0.

Definition T1 : string := "2024-05-01T10:00:01Z".
Definition T2 : string := "2024-05-01T10:00:02Z".
Definition T3 : string := "2024-05-01T10:00:03Z".

Definition sample_message (id created_at : string) : PublicMessage.t :=
  PublicMessage.mk id "room" "ann" "hello" created_at None None None.

Definition seeded (l : list PublicMessage.t) : App :=
  run (setMessages (fun _ => l)) (fresh_session "ann" no_backend).

Definition sample_room : ChatRoom.t :=
  ChatRoom.mk "room" DEFAULT_ROOM_NAME DEFAULT_ROOM_SLUG T1.

Definition sample_backend : Backend :=
  mkBackend [sample_room] [sample_message "1" T1; sample_message "3" T3] [] 10 [] [] [].

(** A session that has joined the sample room. *)
Definition joined : App := run initializeChat (fresh_session "ann" sample_backend).

Definition sample_file : File.t := File.mk "cat.png" 2048 "image/png".

(** The same session with a file pending, about to lose its next
    request. *)
Definition composing : App :=
  on_input (with_attachment (Some sample_file))
           (on_supabase (with_faults [true]) joined).


(* ================================================================== *)
(** ** Joining: the name form, the stored name, what the page shows *)
(* ================================================================== *)

Definition with_username (v : string) (c : ChatState) : ChatState :=
  mkChat v (messages c) (isLoading c) (defaultRoom c).
Definition with_isRecording (v : bool) (i : InputState) : InputState :=
  mkInput (message i) (isSubmitting i) v (isProcessing i) (isUploading i)
          (attachment i).
Definition with_isProcessing (v : bool) (i : InputState) : InputState :=
  mkInput (message i) (isSubmitting i) (isRecording i) v (isUploading i)
          (attachment i).

Definition setUsername (v : string) : Task unit := modify (on_chat (with_username v)).
Definition setIsRecording (v : bool) : Task unit := modify (on_input (with_isRecording v)).
Definition setIsProcessing (v : bool) : Task unit := modify (on_input (with_isProcessing v)).

(** [localStorage]: [getItem] of a key that was never set is [null]. *)
Definition Storage : Type := list (string * string).

Definition getItem (key : string) (st : Storage) : option string :=
  match find (fun e => (fst e =? key)%string) st with
  | Some e => Some (snd e)
  | None => None
  end.

Definition setItem (key value : string) (st : Storage) : Storage :=
  (key, value) :: filter (fun e => negb (fst e =? key)%string) st.

(** A browser tab: the session and the storage that outlives it. *)
Record Page : Type := mkPage {
  app : App;
  localStorage : Storage
}.

Definition toast_username_required : Toast :=
  mkToast "Username required" "Please enter a username to join the chat"
          (Some "destructive").

(** [handleJoin] of [Chat]. *)
Definition handleJoin (name : string) (p : Page) : Page :=
  mkPage (run (setUsername name) (app p))
         (setItem "chatUsername" name (localStorage p)).

(** The effect [Chat] runs on mount. *)
Definition restoreUsername (p : Page) : Page :=
  match getItem "chatUsername" (localStorage p) with
  | Some savedUsername =>
      if truthy savedUsername
      then mkPage (run (setUsername savedUsername) (app p)) (localStorage p)
      else p
  | None => p
  end.

(** [handleSubmit] of [UsernameForm]; [username] is the form's field and
    [onSubmit] is [handleJoin]. *)
Module UsernameForm.
Definition handleSubmit (username : string) (p : Page) : Page :=
  if negb (truthy (trim username))
  then mkPage (run (toast toast_username_required) (app p)) (localStorage p)
  else handleJoin (trim username) p.
End UsernameForm.

(** Loading the page anew: every state cell is back at its initial
    value; the service, the storage and the clock are what they were. *)
Definition reload (p : Page) : Page :=
  mkPage (mkApp (supabase (app p))
                (mkChat EmptyString [] true None)
                (mkInput EmptyString false false false false None)
                [] (now (app p)))
         (localStorage p).

(** What [Chat] returns: the name form, the spinner, the notice of an
    empty room, or the messages. *)
Inductive View : Type :=
| JoinForm
| LoadingIndicator
| EmptyNotice
| MessageList (items : list PublicMessage.t).

Definition render (s : App) : View :=
  if negb (truthy (username (chat s))) then JoinForm
  else if isLoading (chat s) then LoadingIndicator
  else if Nat.eqb (List.length (messages (chat s))) 0 then EmptyNotice
  else MessageList (messages (chat s)).

(* ================================================================== *)
(** ** [ChatInput]: the rest of the composer *)
(* ================================================================== *)

Definition toast_process_failed : Toast :=
  mkToast "Error" "Failed to process speech. Please try again." (Some "destructive").

(** The recorder's [onstop] handler set by [startRecording];
    [inference] is as for [processAudio]. *)
Definition onstop (inference : Error + AsrOutput) : Task unit :=
  setIsRecording false ;;
  setIsProcessing true ;;
  try_finally
    (try_catch (processAudio inference)
               (fun error => toast toast_process_failed))
    (setIsProcessing false).

(** [removeAttachment]; clearing the file input leaves no trace in the
    state. *)
Definition removeAttachment : Task unit := setAttachment None.

(** The [disabled] attribute of the submit button. *)
Definition submitDisabled (s : App) : bool :=
  (negb (truthy (trim (message (input s)))) && is_none (attachment (input s)))
  || isSubmitting (input s) || disabled s || isRecording (input s)
  || isProcessing (input s) || isUploading (input s).

(* ================================================================== *)
(** ** [ChatMessage]: one message on the page *)
(* ================================================================== *)

Definition isCurrentUser (message : PublicMessage.t) (username : string) : bool :=
  (PublicMessage.sender_name message =? username)%string.

Definition colors : list string :=
  [ "text-blue-600"; "text-purple-600"; "text-pink-600"; "text-amber-600";
    "text-emerald-600"; "text-cyan-600"; "text-indigo-600" ].

(** [name.split('').reduce((acc, char) => acc + char.charCodeAt(0), 0)] *)
Definition hash (name : string) : N :=
  fold_left (fun acc char => acc + N_of_ascii char) (list_ascii_of_string name) 0.

(** [colors[hash % colors.length]]; [None] stands for [undefined]. *)
Definition getUserColor (name : string) : option string :=
  nth_error colors (N.to_nat (hash name mod N.of_nat (List.length colors))).

(** The trash button is rendered under [isCurrentUser && onDelete]. *)
Definition deleteControl (message : PublicMessage.t) (username : string)
    (onDelete : bool) : bool :=
  isCurrentUser message username && onDelete.

(** [String.prototype.startsWith] and [String.prototype.includes]. *)
Definition startsWith (s prefix : string) : bool := String.prefix prefix s.
Definition includes_text (s part : string) : bool :=
  match String.index 0 part s with
  | Some _ => true
  | None => false
  end.

(** How an attachment is shown. *)
Inductive AttachmentView : Type :=
| ImageLink (url : string)
| PdfLink (url : string)
| DocumentLink (url : string)
| DownloadLink (url : string).

Section Attachment.

(** The storage client's [getPublicUrl(path).data.publicUrl]. *)
Variable getPublicUrl : string -> string.

Definition getAttachmentUrl (message : PublicMessage.t) : option string :=
  match PublicMessage.attachment_path message with
  | Some path => if truthy path then Some (getPublicUrl path) else None
  | None => None
  end.

Definition attachmentUrl (message : PublicMessage.t) : option string :=
  match PublicMessage.has_attachment message with
  | Some true => getAttachmentUrl message
  | _ => None
  end.

Definition isImage (message : PublicMessage.t) : bool :=
  match PublicMessage.attachment_type message with
  | Some t => startsWith t "image/"
  | None => false
  end.

Definition isPdf (message : PublicMessage.t) : bool :=
  match PublicMessage.attachment_type message with
  | Some t => (t =? "application/pdf")%string
  | None => false
  end.

Definition isDocument (message : PublicMessage.t) : bool :=
  match PublicMessage.attachment_type message with
  | Some t => includes_text t "word" || (t =? "text/plain")%string
  | None => false
  end.

Definition renderAttachment (message : PublicMessage.t) : option AttachmentView :=
  match PublicMessage.has_attachment message, attachmentUrl message with
  | Some true, Some url =>
      if negb (truthy url) then None
      else if isImage message then Some (ImageLink url)
      else if isPdf message then Some (PdfLink url)
      else if isDocument message then Some (DocumentLink url)
      else Some (DownloadLink url)
  | _, _ => None
  end.

End Attachment.

(* ================================================================== *)
(** ** What a handler cannot do *)
(* ================================================================== *)

(** A handler that never ends in a throw, and a handler that leaves an
    observation of the session as it found it, however it ends. *)
Definition never_throws {A : Type} (c : Task A) : Prop :=
  forall s, exists a, fst (c s) = Normal a.

Definition preserves {A B : Type} (obs : App -> B) (c : Task A) : Prop :=
  forall s, obs (snd (c s)) = obs s.

(* ================================================================== *)
(** ** More sample sessions *)
(* ================================================================== *)

(** The joined session with a draft, with a file pending, and with a
    file pending while the second of the coming requests is lost. *)
Definition typing : App := on_input (with_message "  hi  ") joined.

Definition attaching : App := on_input (with_attachment (Some sample_file)) joined.

Definition attaching_insert_lost : App :=
  on_supabase (with_faults [false; true]) attaching.

(** A session about to join the sample room whose history request will
    be lost. *)
Definition joining_history_lost : App :=
  fresh_session "ann" (with_faults [false; true] sample_backend).

Definition sample_page : Page := mkPage (fresh_session EmptyString no_backend) [].

(** A text of white space only, and a name padded with white space,
    both with no-break spaces among it. *)
Definition blank_text : string := String NBSP (String " " (String NBSP EmptyString)).

Definition padded_name : string := String NBSP ("ann " ++ String NBSP EmptyString)%string.

Definition sample_url (path : string) : string :=
  ("https://files.example/object/public/chat_attachments/" ++ path)%string.

Definition sample_row : PublicMessage.t :=
  PublicMessage.mk "7" "room" "ann" EmptyString T2
                   (Some true) (Some "0-cat.png") (Some "image/png").
(* ================================================================== *)
(** ** The listener: inserts *)
(* ================================================================== *)

Lemma run_bind {A B : Type} (c : Task A) (k : A -> Task B) (s : App) :
  run (bind c k) s =
  match c s with
  | (Normal a, s') => run (k a) s'
  | (Throw _, s') => s'
  end.
Proof. unfold run, bind. destruct (c s) as [[a | e] s']; reflexivity. Qed.

Lemma snapshot_insert (m : PublicMessage.t) (s : App) :
  snapshot (run (postgres_changes (INSERT m)) s) = applyInsert m (snapshot s).
Proof. reflexivity. Qed.

Lemma snapshot_delete (i : string) (s : App) :
  snapshot (run (postgres_changes (DELETE i)) s) = applyDelete i (snapshot s).
Proof. reflexivity. Qed.

Lemma snapshot_deliver_inserts (ms : list PublicMessage.t) :
  forall s, snapshot (run (deliver (map INSERT ms)) s) = snapshot s ++ ms.
Proof.
  induction ms as [| m ms IH]; intros s; simpl.
  - unfold run, ret; simpl. now rewrite app_nil_r.
  - rewrite run_bind. simpl. rewrite IH.
    change (snapshot (on_chat _ s)) with (applyInsert m (snapshot s)).
    unfold applyInsert. now rewrite <- app_assoc.
Qed.

(** C1, as the code has it: every delivered insert is appended, whether
    or not its id is already listed.  After any sequence of inserts the
    list is the old list followed by the inserted messages in delivery
    order, so it is free of repeated ids exactly when the old list and the
    delivered messages, taken together, are. *)
Theorem C1_inserts_append (ms : list PublicMessage.t) (s : App) :
  snapshot (run (deliver (map INSERT ms)) s) = snapshot s ++ ms
  /\ (NoDup (ids (snapshot (run (deliver (map INSERT ms)) s)))
      <-> NoDup (ids (snapshot s) ++ ids ms)).
Proof.
  rewrite snapshot_deliver_inserts. split; [reflexivity |].
  unfold ids. rewrite map_app. tauto.
Qed.

Lemma C1_inserts_append_witness :
  NoDup (ids (snapshot (seeded [sample_message "1" T1])) ++ ids [sample_message "2" T2])
  /\ NoDup (ids (snapshot (run (deliver (map INSERT [sample_message "2" T2]))
                               (seeded [sample_message "1" T1])))).
Proof.
  assert (H : NoDup (ids (snapshot (seeded [sample_message "1" T1]))
                     ++ ids [sample_message "2" T2])).
  { simpl. constructor.
    - intros [H | []]. discriminate H.
    - constructor; [intros [] | constructor]. }
  split; [exact H |].
  exact (proj2 (proj2 (C1_inserts_append [sample_message "2" T2]
                         (seeded [sample_message "1" T1]))) H).
Defined.

(** C1 fails as stated: the same insert delivered twice is listed
    twice, and the second delivery does change the list. *)
Lemma C1_duplicate_insert_listed_twice :
  let m := sample_message "1" T1 in
  let once := run (deliver [INSERT m]) (seeded []) in
  let twice := run (deliver [INSERT m; INSERT m]) (seeded []) in
  ~ NoDup (ids (snapshot twice)) /\ snapshot twice <> snapshot once.
Proof.
  simpl. split.
  - intros H. inversion H as [| x l Hin _]; subst. apply Hin. now left.
  - discriminate.
Qed.

(* ================================================================== *)
(** ** The listener: order *)
(* ================================================================== *)

Lemma sorted_by_snoc le (m : PublicMessage.t) (l : list PublicMessage.t) :
  sorted_by le (l ++ [m]) =
  sorted_by le l && match last_message l with
                    | Some x => le x m
                    | None => true
                    end.
Proof.
  unfold last_message.
  induction l as [| a l IH]; [reflexivity |].
  destruct l as [| b l].
  - simpl. now rewrite andb_true_r.
  - change (sorted_by le ((a :: b :: l) ++ [m]))
      with (le a b && sorted_by le ((b :: l) ++ [m])).
    rewrite IH.
    change (sorted_by le (a :: b :: l)) with (le a b && sorted_by le (b :: l)).
    rewrite <- andb_assoc. f_equal. f_equal.
    change (rev (a :: b :: l)) with (rev (b :: l) ++ [a]).
    destruct (rev (b :: l)) as [| z r] eqn:E; [| reflexivity].
    apply (f_equal (@List.length _)) in E. rewrite length_rev in E. discriminate.
Qed.

(** C2, as the code has it: an insert is appended at the end and the list
    is not sorted again.  After an insert the list is in
    [(created_at, id)] order exactly when it was before and the new
    message is not below the entry that was last. *)
Theorem C2_insert_keeps_arrival_order (m : PublicMessage.t) (s : App) :
  snapshot (run (postgres_changes (INSERT m)) s) = snapshot s ++ [m]
  /\ sorted_by key_leb (snapshot (run (postgres_changes (INSERT m)) s)) =
     sorted_by key_leb (snapshot s)
     && match last_message (snapshot s) with
        | Some x => key_leb x m
        | None => true
        end.
Proof.
  rewrite snapshot_insert. unfold applyInsert. split; [reflexivity |].
  apply sorted_by_snoc.
Qed.

(** C2 fails as stated: seeded with messages 1 and 3, an insert of
    message 2 dated between them yields 1, 3, 2, which is not sorted; and
    of two inserts with the same date the one delivered first stays
    first, whatever the ids. *)
Lemma C2_scenario_out_of_order :
  let after := run (postgres_changes (INSERT (sample_message "2" T2)))
                   (seeded [sample_message "1" T1; sample_message "3" T3]) in
  let tied := run (deliver [INSERT (sample_message "b" T1);
                            INSERT (sample_message "a" T1)])
                  (seeded []) in
  ids (snapshot after) = ["1"; "3"; "2"]
  /\ ids (snapshot after) <> ["1"; "2"; "3"]
  /\ sorted_by key_leb (snapshot after) = false
  /\ ids (snapshot tied) = ["b"; "a"]
  /\ sorted_by key_leb (snapshot tied) = false.
Proof.
  simpl. split; [reflexivity |]. split; [discriminate |].
  split; [reflexivity |]. split; reflexivity.
Qed.

(* ================================================================== *)
(** ** The listener: deletes *)
(* ================================================================== *)

Lemma applyDelete_idempotent (i : string) (l : list PublicMessage.t) :
  applyDelete i (applyDelete i l) = applyDelete i l.
Proof.
  unfold applyDelete. induction l as [| x l IH]; simpl; [reflexivity |].
  destruct (PublicMessage.id x =? i)%string eqn:E; simpl.
  - exact IH.
  - rewrite E. simpl. now rewrite IH.
Qed.

Lemma applyDelete_absent (i : string) (l : list PublicMessage.t) :
  ~ In i (ids l) -> applyDelete i l = l.
Proof.
  unfold applyDelete, ids. induction l as [| x l IH]; simpl; intros H; [reflexivity |].
  destruct (String.eqb_spec (PublicMessage.id x) i) as [He | Hne]; simpl.
  - exfalso. apply H. now left.
  - f_equal. apply IH. intros Hin. apply H. now right.
Qed.

Lemma applyDelete_gone (i : string) (l : list PublicMessage.t) :
  ~ In i (ids (applyDelete i l)).
Proof.
  unfold applyDelete, ids. rewrite in_map_iff. intros [x [Hx Hin]].
  apply filter_In in Hin. destruct Hin as [_ Hb].
  rewrite <- Hx, String.eqb_refl in Hb. discriminate.
Qed.

(** C8: handling a delete event twice in a row leaves the session as
    handling it once does, and a delete event for an id that is not listed
    leaves the message list as it was. *)
Theorem C8_delete_idempotent (i : string) (s : App) :
  run (deliver [DELETE i; DELETE i]) s = run (deliver [DELETE i]) s
  /\ (~ In i (ids (snapshot s)) ->
      snapshot (run (postgres_changes (DELETE i)) s) = snapshot s).
Proof.
  split.
  - unfold run, deliver, postgres_changes, setMessages, modify, bind, ret; simpl.
    unfold on_chat, with_messages; simpl.
    now rewrite applyDelete_idempotent.
  - intros H. rewrite snapshot_delete. now apply applyDelete_absent.
Qed.

Lemma C8_delete_idempotent_witness :
  let s := seeded [sample_message "1" T1; sample_message "3" T3] in
  ~ In "2" (ids (snapshot s))
  /\ snapshot (run (postgres_changes (DELETE "2")) s) = snapshot s.
Proof.
  assert (H : ~ In "2" (ids (snapshot
                (seeded [sample_message "1" T1; sample_message "3" T3])))).
  { simpl. intros [H | [H | []]]; discriminate. }
  split; [exact H |].
  exact (proj2 (C8_delete_idempotent "2"
                 (seeded [sample_message "1" T1; sample_message "3" T3])) H).
Defined.

(* ================================================================== *)
(** ** The delete pipeline *)
(* ================================================================== *)

Lemma ltb_false_leb (a b : string) : String.ltb a b = false -> String.leb b a = true.
Proof.
  unfold String.ltb, String.leb. rewrite (String.compare_antisym a b).
  destruct (String.compare b a); simpl; congruence.
Qed.

Lemma ltb_true_leb (a b : string) : String.ltb a b = true -> String.leb a b = true.
Proof.
  unfold String.ltb, String.leb. destruct (String.compare a b); congruence.
Qed.

Lemma insert_by_created_at_sorted (m : PublicMessage.t) (l : list PublicMessage.t) :
  sorted_by created_at_leb l = true ->
  sorted_by created_at_leb (insert_by_created_at m l) = true.
Proof.
  induction l as [| x r IH]; intros H; [reflexivity |].
  simpl insert_by_created_at.
  destruct (String.ltb (PublicMessage.created_at m) (PublicMessage.created_at x)) eqn:E.
  - change (created_at_leb m x && sorted_by created_at_leb (x :: r) = true).
    rewrite H. unfold created_at_leb. now rewrite (ltb_true_leb _ _ E).
  - destruct r as [| y r].
    + simpl. unfold created_at_leb. now rewrite (ltb_false_leb _ _ E).
    + change (created_at_leb x y && sorted_by created_at_leb (y :: r) = true) in H.
      apply andb_true_iff in H. destruct H as [Hxy Hr].
      specialize (IH Hr). simpl insert_by_created_at in *.
      destruct (String.ltb (PublicMessage.created_at m) (PublicMessage.created_at y)).
      * change (created_at_leb x m && sorted_by created_at_leb (m :: y :: r) = true).
        rewrite IH. unfold created_at_leb. now rewrite (ltb_false_leb _ _ E).
      * change (created_at_leb x y
                && sorted_by created_at_leb (y :: insert_by_created_at m r) = true).
        now rewrite Hxy, IH.
Qed.

Lemma order_by_created_at_sorted (l : list PublicMessage.t) :
  sorted_by created_at_leb (order_by_created_at l) = true.
Proof.
  unfold order_by_created_at. induction (rev l) as [| x r IH]; [reflexivity |].
  simpl. now apply insert_by_created_at_sorted.
Qed.

Lemma In_insert_by_created_at (x m : PublicMessage.t) (l : list PublicMessage.t) :
  In x (insert_by_created_at m l) <-> x = m \/ In x l.
Proof.
  induction l as [| y r IH]; simpl.
  - intuition congruence.
  - destruct (String.ltb _ _); simpl; rewrite ?IH; intuition congruence.
Qed.

Lemma In_order_by_created_at (x : PublicMessage.t) (l : list PublicMessage.t) :
  In x (order_by_created_at l) <-> In x l.
Proof.
  unfold order_by_created_at. rewrite (in_rev l).
  induction (rev l) as [| y r IH]; simpl; [tauto |].
  rewrite In_insert_by_created_at, IH. intuition congruence.
Qed.

Lemma not_in_ids_filter (i : string) (P : PublicMessage.t -> bool)
    (l : list PublicMessage.t) :
  ~ In i (ids l) -> ~ In i (ids (filter P l)).
Proof.
  unfold ids. rewrite !in_map_iff. intros H [x [Hx Hin]]. apply H.
  exists x. split; [exact Hx |]. apply filter_In in Hin. tauto.
Qed.

Lemma not_in_ids_order (i : string) (l : list PublicMessage.t) :
  ~ In i (ids l) -> ~ In i (ids (order_by_created_at l)).
Proof.
  unfold ids. rewrite !in_map_iff. intros H [x [Hx Hin]]. apply H.
  exists x. split; [exact Hx |]. now apply In_order_by_created_at.
Qed.

(** C3: when the delete request goes through, [deleteMessage] has sent
    the delete and then the re-fetch of the room's messages, and the id is
    gone from the table and from the message list, with no change event
    handled on the way.  When the re-fetch goes through as well, the
    message list is the re-fetched one: the room's rows in ascending
    [created_at] order.  When it does not, the list is the old one
    without the id. *)
Theorem C3_delete_then_refetch (messageId : string) (s : App) :
  request_fails 0 s = false ->
  let s' := run (deleteMessage messageId) s in
  requests (supabase s') =
    requests (supabase s) ++ [DeleteMessage messageId; SelectMessages (room_filter s)]
  /\ ~ In messageId (ids (public_messages (supabase s')))
  /\ ~ In messageId (ids (snapshot s'))
  /\ (request_fails 1 s = false ->
      snapshot s' =
        order_by_created_at
          (filter (fun m => (PublicMessage.room_id m =? room_filter s)%string)
                  (public_messages (supabase s')))
      /\ sorted_by created_at_leb (snapshot s') = true)
  /\ (request_fails 1 s = true ->
      snapshot s' = applyDelete messageId (snapshot s)).
Proof.
  unfold request_fails, room_filter. simpl. intros Hdel.
  pose proof (applyDelete_gone messageId (public_messages (supabase s))) as Hdb.
  pose proof (applyDelete_gone messageId (snapshot s)) as Hlocal.
  unfold applyDelete, snapshot in Hdb, Hlocal.
  unfold run, deleteMessage, try_catch, bind, await, exchange; simpl.
  rewrite Hdel; simpl.
  destruct (hd false (tl (faults (supabase s)))); simpl;
    rewrite <- app_assoc; unfold snapshot; simpl;
    repeat split;
    auto using order_by_created_at_sorted, not_in_ids_order, not_in_ids_filter;
    discriminate.
Qed.

Lemma C3_delete_then_refetch_witness :
  request_fails 0 joined = false
  /\ ~ In "1" (ids (snapshot (run (deleteMessage "1") joined))).
Proof.
  split; [reflexivity |].
  exact (proj1 (proj2 (proj2 (C3_delete_then_refetch "1" joined eq_refl)))).
Defined.

(* ================================================================== *)
(** ** The send pipeline *)
(* ================================================================== *)

(** C4: a send whose text is blank and which carries no attachment ends
    at the guard.  [sendMessage] returns with the whole session as it
    was, so that no request has been made, and so does [handleSubmit]
    when the draft is that text and no file is pending. *)
Theorem C4_blank_send_makes_no_request (text : string) (s : App) :
  trim text = EmptyString ->
  sendMessage text None s = (Normal tt, s)
  /\ requests (supabase (run (sendMessage text None) s)) = requests (supabase s)
  /\ (message (input s) = text -> attachment (input s) = None ->
      handleSubmit s = (Normal tt, s)).
Proof.
  intros Hblank.
  assert (Hsend : sendMessage text None s = (Normal tt, s)).
  { unfold sendMessage, bind, get. rewrite Hblank. reflexivity. }
  split; [exact Hsend |]. split.
  - unfold run. now rewrite Hsend.
  - intros Hm Ha. unfold handleSubmit, bind, get. rewrite Hm, Ha, Hblank. reflexivity.
Qed.

Lemma C4_blank_send_makes_no_request_witness :
  trim blank_text = EmptyString
  /\ sendMessage blank_text None joined = (Normal tt, joined).
Proof.
  split; [reflexivity |].
  exact (proj1 (C4_blank_send_makes_no_request blank_text joined eq_refl)).
Defined.

(** The no-break space counts as white space at both ends of a text and
    nowhere else: a text made of it is blank, a text it pads is stripped
    of it, a text that has it inside keeps it. *)
Lemma trim_strips_no_break_space :
  trim (String NBSP EmptyString) = EmptyString
  /\ trim blank_text = EmptyString
  /\ trim padded_name = "ann"
  /\ trim ("a" ++ String NBSP "b")%string = ("a" ++ String NBSP "b")%string
  /\ submitDisabled (on_input (with_message blank_text) joined) = true.
Proof. repeat split. Qed.

(** A submission that fails after the guard is reported by
    [sendMessage] with its own toast, and thrown on to the caller. *)
Lemma sendMessage_failure_toast (text : string) (info : option AttachmentInfo.t)
    (room : ChatRoom.t) (s : App) :
  defaultRoom (chat s) = Some room ->
  negb (truthy (trim text)) && is_none info = false ->
  request_fails 0 s = true ->
  fst (sendMessage text info s) = Throw network_error
  /\ toasts (run (sendMessage text info) s) = toasts s ++ [toast_send_failed]
  /\ public_messages (supabase (run (sendMessage text info) s)) =
     public_messages (supabase s).
Proof.
  unfold request_fails. simpl. intros Hroom Hpre Hfail.
  unfold run, sendMessage, bind, get. rewrite Hroom, Hpre. simpl.
  unfold try_catch, bind, await, exchange; simpl. rewrite Hfail.
  destruct info; repeat split.
Qed.

(** C5: when the upload of the pending file fails, be it lost or
    refused because the key is taken, [handleSubmit] has sent the upload
    and nothing else, so no message row was asked for; it shows the
    upload-failure toast, which is not the toast of a failed submission;
    draft and pending file are as they were. *)
Theorem C5_failed_upload_aborts_send (file : File.t) (s : App) :
  attachment (input s) = Some file ->
  isSubmitting (input s) = false ->
  disabled s = false ->
  request_fails 0 s = true \/ path_taken (upload_path s file) s = true ->
  let s' := run handleSubmit s in
  requests (supabase s') =
    requests (supabase s) ++ [Upload "chat_attachments" (upload_path s file)]
  /\ public_messages (supabase s') = public_messages (supabase s)
  /\ chat_attachments (supabase s') = chat_attachments (supabase s)
  /\ toasts s' = toasts s ++ [toast_upload_failed]
  /\ toast_upload_failed <> toast_send_failed
  /\ message (input s') = message (input s)
  /\ attachment (input s') = attachment (input s)
  /\ isSubmitting (input s') = false
  /\ isUploading (input s') = false.
Proof.
  unfold request_fails, path_taken, upload_path. simpl. intros Ha Hs Hd Hfail.
  unfold run, handleSubmit, bind, get. rewrite Ha, Hs, Hd.
  rewrite orb_false_r, andb_false_r.
  unfold try_finally, try_catch, bind, await, exchange, Date_now; simpl.
  destruct (hd false (faults (supabase s))) eqn:F; simpl.
  - rewrite Ha. repeat split; discriminate.
  - destruct Hfail as [Hf | Hp]; [discriminate |].
    unfold serve_upload; simpl. rewrite Hp. simpl. rewrite Ha.
    repeat split; discriminate.
Qed.

Lemma C5_failed_upload_aborts_send_witness :
  attachment (input composing) = Some sample_file
  /\ isSubmitting (input composing) = false
  /\ disabled composing = false
  /\ request_fails 0 composing = true
  /\ toasts (run handleSubmit composing) = toasts composing ++ [toast_upload_failed].
Proof.
  repeat (split; [reflexivity |]).
  exact (proj1 (proj2 (proj2 (proj2
           (C5_failed_upload_aborts_send sample_file composing
              eq_refl eq_refl eq_refl (or_introl eq_refl)))))).
Defined.

Section Frame.
Variables A B : Type.

Lemma keeps_ret (a : A) : keeps_snapshot (ret a).
Proof. intros s. reflexivity. Qed.

Lemma keeps_throw (e : Error) : keeps_snapshot (@throw A e).
Proof. intros s. reflexivity. Qed.

Lemma keeps_bind (c : Task A) (k : A -> Task B) :
  keeps_snapshot c -> (forall a, keeps_snapshot (k a)) -> keeps_snapshot (bind c k).
Proof.
  intros Hc Hk s. unfold bind. specialize (Hc s).
  destruct (c s) as [[a | e] s1]; simpl in *; [| exact Hc].
  now rewrite Hk.
Qed.

Lemma keeps_try_catch (body : Task A) (handler : Error -> Task A) :
  keeps_snapshot body -> (forall e, keeps_snapshot (handler e)) ->
  keeps_snapshot (try_catch body handler).
Proof.
  intros Hb Hh s. unfold try_catch. specialize (Hb s).
  destruct (body s) as [[a | e] s1]; simpl in *; [exact Hb |].
  now rewrite Hh.
Qed.

Lemma keeps_try_finally (body : Task A) (cleanup : Task unit) :
  keeps_snapshot body -> keeps_snapshot cleanup ->
  keeps_snapshot (try_finally body cleanup).
Proof.
  intros Hb Hc s. unfold try_finally. specialize (Hb s).
  destruct (body s) as [r s1]. specialize (Hc s1).
  destruct (cleanup s1) as [[u | e] s2]; simpl in *; congruence.
Qed.

Lemma keeps_await (r : Request) (serve : Backend -> (Error + A) * Backend) :
  keeps_snapshot (await r serve).
Proof.
  intros s. unfold await. destruct (exchange r serve (supabase s)). reflexivity.
Qed.
End Frame.

Lemma keeps_get : keeps_snapshot get.
Proof. intros s. reflexivity. Qed.

Lemma keeps_Date_now : keeps_snapshot Date_now.
Proof. intros s. reflexivity. Qed.

Lemma keeps_toast (t : Toast) : keeps_snapshot (toast t).
Proof. intros s. reflexivity. Qed.

Lemma keeps_on_input (f : InputState -> InputState) : keeps_snapshot (modify (on_input f)).
Proof. intros s. reflexivity. Qed.

(** Walks down a handler built from the combinators above. *)
Ltac frame :=
  repeat first
    [ progress intros
    | apply keeps_bind | apply keeps_try_catch | apply keeps_try_finally
    | apply keeps_ret | apply keeps_throw | apply keeps_await | apply keeps_get
    | apply keeps_Date_now | apply keeps_toast | apply keeps_on_input
    | match goal with
      | |- keeps_snapshot (if ?b then _ else _) => destruct b
      | |- keeps_snapshot (match ?x with _ => _ end) => destruct x
      end ].

Lemma sendMessage_keeps_snapshot (text : string) (info : option AttachmentInfo.t) :
  keeps_snapshot (sendMessage text info).
Proof. unfold sendMessage. frame. Qed.

Lemma handleSubmit_keeps_snapshot : keeps_snapshot handleSubmit.
Proof.
  unfold handleSubmit, setIsSubmitting, setIsUploading, setMessage, setAttachment.
  frame; apply sendMessage_keeps_snapshot.
Qed.

(** C6: neither [sendMessage] nor the whole of [handleSubmit] changes
    the message list, whichever way they end.  A submission that goes
    through stores a row with the room, the sender and the text, for which
    the service emits an insert event; it is the listener, handling that
    event, that puts the row at the end of the list. *)
Theorem C6_send_leaves_list_to_the_feed
    (text : string) (info : option AttachmentInfo.t) (s : App) :
  snapshot (run (sendMessage text info) s) = snapshot s
  /\ snapshot (run handleSubmit s) = snapshot s
  /\ (forall room,
        defaultRoom (chat s) = Some room ->
        negb (truthy (trim text)) && is_none info = false ->
        request_fails 0 s = false ->
        let s' := run (sendMessage text info) s in
        exists row,
          changes (supabase s') = changes (supabase s) ++ [INSERT row]
          /\ public_messages (supabase s') = public_messages (supabase s) ++ [row]
          /\ PublicMessage.room_id row = ChatRoom.id room
          /\ PublicMessage.sender_name row = username (chat s)
          /\ PublicMessage.content row = text
          /\ snapshot (run (postgres_changes (INSERT row)) s') = snapshot s ++ [row]).
Proof.
  split; [apply sendMessage_keeps_snapshot |].
  split; [apply handleSubmit_keeps_snapshot |].
  unfold request_fails. simpl. intros room Hroom Hpre Hok.
  unfold run, sendMessage, bind, get. rewrite Hroom, Hpre. simpl.
  unfold try_catch, bind, await, exchange; simpl. rewrite Hok.
  destruct info as [i |]; simpl; eexists; repeat split.
Qed.

Lemma C6_send_leaves_list_to_the_feed_witness :
  defaultRoom (chat joined) = Some sample_room
  /\ negb (truthy (trim "hi")) && is_none (@None AttachmentInfo.t) = false
  /\ request_fails 0 joined = false
  /\ exists row,
       changes (supabase (run (sendMessage "hi" None) joined)) =
         changes (supabase joined) ++ [INSERT row]
       /\ public_messages (supabase (run (sendMessage "hi" None) joined)) =
          public_messages (supabase joined) ++ [row]
       /\ PublicMessage.room_id row = ChatRoom.id sample_room
       /\ PublicMessage.sender_name row = username (chat joined)
       /\ PublicMessage.content row = "hi"
       /\ snapshot (run (postgres_changes (INSERT row))
                        (run (sendMessage "hi" None) joined)) =
          snapshot joined ++ [row].
Proof.
  repeat (split; [reflexivity |]).
  exact (proj2 (proj2 (C6_send_leaves_list_to_the_feed "hi" None joined))
           sample_room eq_refl eq_refl eq_refl).
Defined.

(* ================================================================== *)
(** ** Resolving the default room *)
(* ================================================================== *)

Lemma known_rooms_slug (s : App) (room : ChatRoom.t) :
  In room (known_rooms s) -> ChatRoom.slug room = DEFAULT_ROOM_SLUG.
Proof.
  unfold known_rooms. intros H. apply filter_In in H. destruct H as [_ H].
  now apply String.eqb_eq.
Qed.

Ltac start_initializeChat Hu :=
  unfold run, initializeChat, bind, get; rewrite Hu; simpl negb; cbv iota;
  unfold try_finally, try_catch, bind, await, exchange, serve_select_rooms,
    setIsLoading, modify; simpl.

(** The lookup finds a room: that room is taken and none is created. *)
Lemma initializeChat_found (s : App) (room : ChatRoom.t) (rest : list ChatRoom.t) :
  truthy (username (chat s)) = true ->
  request_fails 0 s = false ->
  known_rooms s = room :: rest ->
  defaultRoom (chat (run initializeChat s)) = Some room
  /\ chat_rooms (supabase (run initializeChat s)) = chat_rooms (supabase s).
Proof.
  unfold request_fails, known_rooms. simpl. intros Hu Hok Hknown.
  start_initializeChat Hu. rewrite Hok, Hknown. simpl.
  destruct (hd false (tl (faults (supabase s)))); simpl; split; reflexivity.
Qed.

(** The lookup finds none: a room is created under the default name. *)
Lemma initializeChat_created (s : App) :
  truthy (username (chat s)) = true ->
  request_fails 0 s = false ->
  known_rooms s = [] ->
  request_fails 1 s = false ->
  exists room,
    defaultRoom (chat (run initializeChat s)) = Some room
    /\ ChatRoom.name room = DEFAULT_ROOM_NAME
    /\ ChatRoom.slug room = DEFAULT_ROOM_SLUG
    /\ chat_rooms (supabase (run initializeChat s)) = chat_rooms (supabase s) ++ [room].
Proof.
  unfold request_fails, known_rooms. simpl. intros Hu Hok Hknown Hok1.
  start_initializeChat Hu. rewrite Hok, Hknown. simpl. rewrite Hok1. simpl.
  destruct (hd false (tl (tl (faults (supabase s))))); simpl;
    eexists; repeat split.
Qed.

(** C7: [initializeChat] looks the room up by the default slug.  A room
    that is found is taken and no room is created; when none is found one
    is created with the default name and the default slug, after which a
    session that sees the table finds a room with that slug and creates no
    other.  A lookup or a creation that fails shows the load-failure toast
    and leaves the session without a room, and so with the composer
    disabled if it had none; the failed request is the last one sent. *)
Theorem C7_resolve_default_room (s : App) :
  truthy (username (chat s)) = true ->
  let s' := run initializeChat s in
  (forall room rest,
      request_fails 0 s = false -> known_rooms s = room :: rest ->
      defaultRoom (chat s') = Some room
      /\ ChatRoom.slug room = DEFAULT_ROOM_SLUG
      /\ chat_rooms (supabase s') = chat_rooms (supabase s))
  /\ (request_fails 0 s = false -> known_rooms s = [] -> request_fails 1 s = false ->
      exists room,
        defaultRoom (chat s') = Some room
        /\ ChatRoom.name room = DEFAULT_ROOM_NAME
        /\ ChatRoom.slug room = DEFAULT_ROOM_SLUG
        /\ chat_rooms (supabase s') = chat_rooms (supabase s) ++ [room]
        /\ forall other,
             truthy (username (chat other)) = true ->
             chat_rooms (supabase other) = chat_rooms (supabase s') ->
             request_fails 0 other = false ->
             exists room',
               defaultRoom (chat (run initializeChat other)) = Some room'
               /\ ChatRoom.slug room' = DEFAULT_ROOM_SLUG
               /\ chat_rooms (supabase (run initializeChat other)) =
                  chat_rooms (supabase other))
  /\ (request_fails 0 s = true ->
      requests (supabase s') = requests (supabase s) ++ [SelectRooms DEFAULT_ROOM_SLUG]
      /\ toasts s' = toasts s ++ [toast_load_failed]
      /\ defaultRoom (chat s') = defaultRoom (chat s)
      /\ chat_rooms (supabase s') = chat_rooms (supabase s)
      /\ isLoading (chat s') = false
      /\ (defaultRoom (chat s) = None -> disabled s' = true))
  /\ (request_fails 0 s = false -> known_rooms s = [] -> request_fails 1 s = true ->
      requests (supabase s') =
        requests (supabase s) ++ [SelectRooms DEFAULT_ROOM_SLUG;
                                  InsertRoom DEFAULT_ROOM_NAME DEFAULT_ROOM_SLUG]
      /\ toasts s' = toasts s ++ [toast_load_failed]
      /\ defaultRoom (chat s') = defaultRoom (chat s)
      /\ chat_rooms (supabase s') = chat_rooms (supabase s)
      /\ isLoading (chat s') = false
      /\ (defaultRoom (chat s) = None -> disabled s' = true)).
Proof.
  intros Hu s'. subst s'. split; [| split; [| split]].
  - intros room rest Hok Hknown.
    destruct (initializeChat_found s room rest Hu Hok Hknown) as [Hroom Hrooms].
    split; [exact Hroom |]. split; [| exact Hrooms].
    apply (known_rooms_slug s). rewrite Hknown. now left.
  - intros Hok Hknown Hok1.
    destruct (initializeChat_created s Hu Hok Hknown Hok1)
      as [room [Hroom [Hname [Hslug Hrooms]]]].
    exists room. repeat (split; [assumption |]).
    intros other Hu' Hsame Hok'.
    destruct (known_rooms other) as [| room' rest] eqn:Hk.
    + exfalso. assert (Hin : In room (known_rooms other)).
      { unfold known_rooms. apply filter_In. split.
        - rewrite Hsame, Hrooms. apply in_or_app. right. now left.
        - rewrite Hslug. apply String.eqb_refl. }
      rewrite Hk in Hin. exact Hin.
    + destruct (initializeChat_found other room' rest Hu' Hok' Hk) as [Hr Hrs].
      exists room'. split; [exact Hr |]. split; [| exact Hrs].
      apply (known_rooms_slug other). rewrite Hk. now left.
  - unfold request_fails, disabled. simpl. intros Hfail.
    start_initializeChat Hu. rewrite Hfail. simpl.
    repeat split. intros ->. reflexivity.
  - unfold request_fails, known_rooms, disabled. simpl. intros Hok Hknown Hfail.
    start_initializeChat Hu. rewrite Hok, Hknown. simpl. rewrite Hfail. simpl.
    rewrite <- app_assoc. repeat split. intros ->. reflexivity.
Qed.

Lemma C7_resolve_default_room_witness :
  let s := fresh_session "ann" no_backend in
  truthy (username (chat s)) = true
  /\ request_fails 0 s = false
  /\ known_rooms s = []
  /\ request_fails 1 s = false
  /\ exists room,
       defaultRoom (chat (run initializeChat s)) = Some room
       /\ ChatRoom.slug room = DEFAULT_ROOM_SLUG.
Proof.
  repeat (split; [reflexivity |]).
  destruct (proj1 (proj2 (C7_resolve_default_room (fresh_session "ann" no_backend)
                            eq_refl)) eq_refl eq_refl eq_refl)
    as [room [Hroom [_ [Hslug _]]]].
  exists room. split; [exact Hroom | exact Hslug].
Defined.

(* ================================================================== *)
(** ** Voice input and the attachment picker *)
(* ================================================================== *)

(** C9: when the recogniser yields a text, be it as a single object or
    as the first chunk of an array, the draft becomes that text if it was
    empty and otherwise the old draft, one space and the text; nothing
    else of the session changes but the toasts.  When the recogniser
    yields no text, or fails, the session is as it was but for the toasts,
    which end with the notice of no speech or of the failure. *)
Theorem C9_transcript_joins_draft (s : App) (t : string) :
  truthy t = true ->
  (forall out,
      out = AsrObject (mkChunk t) \/ (exists rest, out = AsrArray (mkChunk t :: rest)) ->
      let s' := run (processAudio (inr out)) s in
      message (input s') =
        (if (message (input s) =? EmptyString)%string
         then t
         else message (input s) ++ " " ++ t)%string
      /\ s' = on_toasts (fun l => l ++ [toast_processing; toast_transcribed])
                (on_input (with_message (message (input s'))) s))
  /\ (forall out,
        out = AsrOther \/ out = AsrArray [] \/ out = AsrObject (mkChunk EmptyString)
        \/ (exists rest, out = AsrArray (mkChunk EmptyString :: rest)) ->
        run (processAudio (inr out)) s =
        on_toasts (fun l => l ++ [toast_processing; toast_no_speech]) s)
  /\ (forall e,
        run (processAudio (inl e)) s =
        on_toasts (fun l => l ++ [toast_processing; toast_recognition_failed]) s).
Proof.
  intros Ht.
  assert (Htoasts : forall (a b : Toast) (l : list Toast), (l ++ [a]) ++ [b] = l ++ [a; b]).
  { intros a b l. now rewrite <- app_assoc. }
  split; [| split].
  - intros out [-> | [rest ->]];
      unfold run, processAudio, try_catch, bind, toast, setMessage, modify, ret;
      simpl; repeat (rewrite Ht; simpl);
      (split; [destruct (message (input s)); reflexivity |]);
      unfold on_toasts, on_input; simpl; now rewrite Htoasts.
  - intros out [-> | [-> | [-> | [rest ->]]]];
      unfold run, processAudio, try_catch, bind, toast, modify, ret; simpl;
      unfold on_toasts; simpl; now rewrite Htoasts.
  - intros e.
    unfold run, processAudio, try_catch, bind, toast, modify, throw; simpl.
    unfold on_toasts; simpl. now rewrite Htoasts.
Qed.

Lemma C9_transcript_joins_draft_witness :
  truthy "hello" = true
  /\ message (input (run (processAudio (inr (AsrObject (mkChunk "hello")))) joined)) =
     "hello".
Proof.
  split; [reflexivity |].
  exact (proj1 (proj1 (C9_transcript_joins_draft joined "hello" eq_refl)
                  (AsrObject (mkChunk "hello")) (or_introl eq_refl))).
Defined.

Lemma includes_In (l : list string) (x : string) : includes l x = true <-> In x l.
Proof.
  unfold includes. rewrite existsb_exists. split.
  - intros [y [Hin Heq]]. apply String.eqb_eq in Heq. now subst.
  - intros Hin. exists x. split; [exact Hin | apply String.eqb_refl].
Qed.

(** C10: a chosen file becomes the pending attachment exactly when it
    is at most 10 * 1024 * 1024 bytes long and its type is one of the
    eight listed.  A file that fails a check changes nothing but the
    toasts: the pending attachment stays what it was, unset if it was
    unset, and no request is made. *)
Theorem C10_attachment_gate (file : File.t) (s : App) :
  let s' := run (handleFileInputChange (Some file)) s in
  let accepted :=
    File.size file <= 10 * 1024 * 1024
    /\ In (File.type file)
          [ "image/jpeg"; "image/png"; "image/gif"; "image/webp";
            "application/pdf"; "text/plain"; "application/msword";
            "application/vnd.openxmlformats-officedocument.wordprocessingml.document" ] in
  (accepted -> s' = on_input (with_attachment (Some file)) s)
  /\ (~ accepted ->
      supabase s' = supabase s /\ chat s' = chat s /\ input s' = input s
      /\ (toasts s' = toasts s ++ [toast_file_too_large]
          \/ toasts s' = toasts s ++ [toast_invalid_type]))
  /\ (attachment (input s) = None ->
      (attachment (input s') = Some file <-> accepted)).
Proof.
  intros s' accepted.
  assert (Hdec : ((10 * 1024 * 1024 <? File.size file) = false
                  /\ includes allowedTypes (File.type file) = true) <-> accepted).
  { unfold accepted. rewrite N.ltb_ge, includes_In. reflexivity. }
  subst s'. unfold run, handleFileInputChange.
  destruct (10 * 1024 * 1024 <? File.size file) eqn:Hsize;
    [| destruct (includes allowedTypes (File.type file)) eqn:Htype ]; simpl.
  - assert (Hno : ~ accepted) by (rewrite <- Hdec; intros [H _]; discriminate).
    split; [tauto |]. split; [intros _; repeat split; now left |].
    intros Hnone. rewrite Hnone. split; [discriminate | tauto].
  - assert (Hyes : accepted) by (apply Hdec; split; reflexivity).
    split; [reflexivity |]. split; [tauto |]. tauto.
  - assert (Hno : ~ accepted) by (rewrite <- Hdec; intros [_ H]; discriminate).
    split; [tauto |]. split; [intros _; repeat split; now right |].
    intros Hnone. rewrite Hnone. split; [discriminate | tauto].
Qed.

Lemma C10_attachment_gate_witness :
  (File.size sample_file <= 10 * 1024 * 1024
   /\ In (File.type sample_file)
         [ "image/jpeg"; "image/png"; "image/gif"; "image/webp";
           "application/pdf"; "text/plain"; "application/msword";
           "application/vnd.openxmlformats-officedocument.wordprocessingml.document" ])
  /\ run (handleFileInputChange (Some sample_file)) joined =
     on_input (with_attachment (Some sample_file)) joined.
Proof.
  assert (H : File.size sample_file <= 10 * 1024 * 1024
              /\ In (File.type sample_file)
                    [ "image/jpeg"; "image/png"; "image/gif"; "image/webp";
                      "application/pdf"; "text/plain"; "application/msword";
                      "application/vnd.openxmlformats-officedocument.wordprocessingml.document" ]).
  { split; [intros H; discriminate H | right; left; reflexivity]. }
  split; [exact H |].
  exact (proj1 (C10_attachment_gate sample_file joined) H).
Defined.

(* ================================================================== *)
(** ** The listener: how events compose *)
(* ================================================================== *)

(** Handling a batch of events is handling its first part and then the
    rest from where that ended. *)
Lemma deliver_app (first rest : list Payload) (s : App) :
  run (deliver (first ++ rest)) s = run (deliver rest) (run (deliver first) s).
Proof.
  revert s. induction first as [| payload first IH]; intros s; [reflexivity |].
  simpl. rewrite !run_bind.
  destruct payload; simpl; apply IH.
Qed.

(** X1: whatever the events, the listener never throws and touches
    nothing but the message list: the service, the composer, the toasts,
    the clock and the other cells of the page are as they were. *)
Theorem X1_deliver_changes_messages_only (events : list Payload) (s : App) :
  deliver events s =
  (Normal tt, on_chat (with_messages (snapshot (run (deliver events) s))) s).
Proof.
  revert s. induction events as [| payload events IH]; intros s.
  - destruct s as [b [u m l r] i t n]. reflexivity.
  - unfold run in *. simpl. unfold bind.
    destruct payload; simpl; rewrite IH; reflexivity.
Qed.

(** X2: an insert followed by the delete of the same id puts the list
    back as it was, provided the id was not listed before. *)
Theorem X2_insert_then_delete_restores (m : PublicMessage.t) (s : App) :
  ~ In (PublicMessage.id m) (ids (snapshot s)) ->
  snapshot (run (deliver [INSERT m; DELETE (PublicMessage.id m)]) s) = snapshot s.
Proof.
  intros H. change (applyDelete (PublicMessage.id m) (applyInsert m (snapshot s))
                    = snapshot s).
  unfold applyDelete, applyInsert. rewrite filter_app. simpl.
  rewrite String.eqb_refl. simpl. rewrite app_nil_r.
  now apply applyDelete_absent.
Qed.

Lemma X2_insert_then_delete_restores_witness :
  ~ In (PublicMessage.id (sample_message "2" T2)) (ids (snapshot joined))
  /\ snapshot (run (deliver [INSERT (sample_message "2" T2);
                             DELETE (PublicMessage.id (sample_message "2" T2))])
                   joined) = snapshot joined.
Proof.
  assert (H : ~ In (PublicMessage.id (sample_message "2" T2)) (ids (snapshot joined))).
  { simpl. intros [H | [H | []]]; discriminate H. }
  split; [exact H |].
  exact (X2_insert_then_delete_restores (sample_message "2" T2) joined H).
Defined.


(** X3: a delete that is delivered ahead of its insert does not keep
    the message out: the insert that follows lists it, at the end. *)
Theorem X3_delete_ahead_of_insert_lists_message (m : PublicMessage.t) (s : App) :
  snapshot (run (deliver [DELETE (PublicMessage.id m); INSERT m]) s) =
    applyDelete (PublicMessage.id m) (snapshot s) ++ [m]
  /\ In m (snapshot (run (deliver [DELETE (PublicMessage.id m); INSERT m]) s)).
Proof.
  split; [reflexivity |].
  change (In m (applyDelete (PublicMessage.id m) (snapshot s) ++ [m])).
  apply in_or_app. right. now left.
Qed.

(** X4: an insert and the delete of another id can be handled in
    either order. *)
Theorem X4_insert_delete_commute (m : PublicMessage.t) (i : string) (s : App) :
  PublicMessage.id m <> i ->
  run (deliver [INSERT m; DELETE i]) s = run (deliver [DELETE i; INSERT m]) s.
Proof.
  intros Hne. unfold run. simpl. unfold bind, setMessages, modify, ret. simpl.
  unfold on_chat, with_messages. simpl. unfold applyDelete, applyInsert.
  rewrite filter_app. simpl.
  apply String.eqb_neq in Hne. rewrite Hne. reflexivity.
Qed.

Lemma X4_insert_delete_commute_witness :
  PublicMessage.id (sample_message "2" T2) <> "1"
  /\ run (deliver [INSERT (sample_message "2" T2); DELETE "1"]) joined =
     run (deliver [DELETE "1"; INSERT (sample_message "2" T2)]) joined.
Proof.
  assert (H : PublicMessage.id (sample_message "2" T2) <> "1").
  { simpl. intros H. discriminate H. }
  split; [exact H |].
  exact (X4_insert_delete_commute (sample_message "2" T2) "1" joined H).
Defined.


Lemma compare_lt_trans (a b c : string) :
  String.compare a b = Lt -> String.compare b c = Lt -> String.compare a c = Lt.
Proof.
  intros H1 H2.
  apply OrderedTypeEx.String_as_OT.cmp_lt.
  apply OrderedTypeEx.String_as_OT.lt_trans with b;
    now apply OrderedTypeEx.String_as_OT.cmp_lt.
Qed.

Lemma compare_refl (a : string) : String.compare a a = Eq.
Proof.
  destruct (String.compare a a) eqn:E; [reflexivity | |];
    pose proof (String.compare_antisym a a) as H; rewrite E in H; discriminate.
Qed.

Lemma leb_trans (a b c : string) :
  String.leb a b = true -> String.leb b c = true -> String.leb a c = true.
Proof.
  unfold String.leb.
  destruct (String.compare a b) eqn:Hab; [| | discriminate]; intros _;
    destruct (String.compare b c) eqn:Hbc; try discriminate; intros _.
  - apply String.compare_eq_iff in Hab, Hbc. subst. now rewrite compare_refl.
  - apply String.compare_eq_iff in Hab. subst. now rewrite Hbc.
  - apply String.compare_eq_iff in Hbc. subst. now rewrite Hab.
  - now rewrite (compare_lt_trans _ _ _ Hab Hbc).
Qed.

Lemma key_leb_trans (a b c : PublicMessage.t) :
  key_leb a b = true -> key_leb b c = true -> key_leb a c = true.
Proof.
  unfold key_leb.
  destruct (String.compare (PublicMessage.created_at a) (PublicMessage.created_at b))
    eqn:Hab; [| | discriminate]; intros H1;
    destruct (String.compare (PublicMessage.created_at b) (PublicMessage.created_at c))
      eqn:Hbc; try discriminate; intros H2.
  - apply String.compare_eq_iff in Hab, Hbc. rewrite Hab, Hbc, compare_refl.
    now apply leb_trans with (PublicMessage.id b).
  - apply String.compare_eq_iff in Hab. now rewrite Hab, Hbc.
  - apply String.compare_eq_iff in Hbc. now rewrite <- Hbc, Hab.
  - now rewrite (compare_lt_trans _ _ _ Hab Hbc).
Qed.

(** In a sorted list the head is below every later entry. *)
Lemma sorted_by_head_below le (Htrans : forall a b c, le a b = true -> le b c = true -> le a c = true)
    (x : PublicMessage.t) (l : list PublicMessage.t) :
  sorted_by le (x :: l) = true -> Forall (fun y => le x y = true) l.
Proof.
  revert x. induction l as [| y l IH]; intros x H; [constructor |].
  change (le x y && sorted_by le (y :: l) = true) in H.
  apply andb_true_iff in H. destruct H as [Hxy Hl].
  constructor; [exact Hxy |].
  specialize (IH y Hl). eapply Forall_impl; [| exact IH].
  intros z Hyz. now apply Htrans with y.
Qed.

Lemma sorted_by_tail le (x : PublicMessage.t) (l : list PublicMessage.t) :
  sorted_by le (x :: l) = true -> sorted_by le l = true.
Proof.
  destruct l as [| y l]; [reflexivity |].
  intros H. change (le x y && sorted_by le (y :: l) = true) in H.
  now apply andb_true_iff in H.
Qed.

Lemma sorted_by_cons le (x : PublicMessage.t) (l : list PublicMessage.t) :
  Forall (fun y => le x y = true) l -> sorted_by le l = true ->
  sorted_by le (x :: l) = true.
Proof.
  destruct l as [| y l]; [reflexivity |].
  intros HF Hl. inversion HF as [| ? ? Hxy _]; subst.
  change (le x y && sorted_by le (y :: l) = true). now rewrite Hxy.
Qed.

Lemma sorted_by_filter le (Htrans : forall a b c, le a b = true -> le b c = true -> le a c = true)
    (P : PublicMessage.t -> bool) (l : list PublicMessage.t) :
  sorted_by le l = true -> sorted_by le (filter P l) = true.
Proof.
  induction l as [| x l IH]; intros H; [reflexivity |].
  pose proof (sorted_by_head_below le Htrans x l H) as Hhead.
  specialize (IH (sorted_by_tail le x l H)).
  simpl. destruct (P x); [| exact IH].
  apply sorted_by_cons; [| exact IH].
  apply Forall_forall. intros y Hy. apply filter_In in Hy.
  rewrite Forall_forall in Hhead. now apply Hhead.
Qed.

(** X5: a delete event keeps a sorted list sorted, in the
    [(created_at, id)] order and in the [created_at] order of the
    history. *)
Theorem X5_delete_keeps_order (i : string) (s : App) :
  (sorted_by key_leb (snapshot s) = true ->
   sorted_by key_leb (snapshot (run (postgres_changes (DELETE i)) s)) = true)
  /\ (sorted_by created_at_leb (snapshot s) = true ->
      sorted_by created_at_leb (snapshot (run (postgres_changes (DELETE i)) s)) = true).
Proof.
  rewrite snapshot_delete. unfold applyDelete. split; intros H.
  - apply sorted_by_filter; [exact key_leb_trans | exact H].
  - apply sorted_by_filter; [| exact H].
    intros a b c. unfold created_at_leb. apply leb_trans.
Qed.

Lemma X5_delete_keeps_order_witness :
  sorted_by key_leb (snapshot joined) = true
  /\ sorted_by key_leb (snapshot (run (postgres_changes (DELETE "1")) joined)) = true.
Proof.
  split; [reflexivity |].
  exact (proj1 (X5_delete_keeps_order "1" joined) eq_refl).
Defined.


(** X6: a delete event removes every entry with the id and no other:
    what is listed afterwards is what was listed with another id.  A list
    free of repeated ids stays so. *)
Theorem X6_delete_removes_exactly (i : string) (s : App) :
  (forall m, In m (snapshot (run (postgres_changes (DELETE i)) s))
             <-> In m (snapshot s) /\ PublicMessage.id m <> i)
  /\ (NoDup (ids (snapshot s)) ->
      NoDup (ids (snapshot (run (postgres_changes (DELETE i)) s)))).
Proof.
  rewrite snapshot_delete. unfold applyDelete. split.
  - intros m. rewrite filter_In, negb_true_iff, String.eqb_neq. reflexivity.
  - unfold ids. induction (snapshot s) as [| x l IH]; simpl; intros H; [constructor |].
    inversion H as [| ? ? Hx Hl]; subst.
    destruct (negb (PublicMessage.id x =? i)%string); [| now apply IH].
    simpl. constructor; [| now apply IH].
    intros Hin. apply Hx. apply in_map_iff in Hin. destruct Hin as [y [Hy Hin]].
    apply in_map_iff. exists y. split; [exact Hy |]. apply filter_In in Hin. tauto.
Qed.

Lemma X6_delete_removes_exactly_witness :
  (In (sample_message "3" T3) (snapshot joined)
   /\ PublicMessage.id (sample_message "3" T3) <> "1")
  /\ In (sample_message "3" T3) (snapshot (run (postgres_changes (DELETE "1")) joined)).
Proof.
  assert (H : In (sample_message "3" T3) (snapshot joined)
              /\ PublicMessage.id (sample_message "3" T3) <> "1").
  { split; [right; left; reflexivity | simpl; intros H; discriminate H]. }
  split; [exact H |].
  exact (proj2 (proj1 (X6_delete_removes_exactly "1" joined) (sample_message "3" T3)) H).
Defined.


(* ================================================================== *)
(** ** Joining the room: the history *)
(* ================================================================== *)

(** X7: when the room is found and the history request goes through,
    the message list is the room's rows in ascending [created_at] order,
    every listed message belongs to the room, the channel is opened last,
    no toast is shown and the spinner is gone. *)
Theorem X7_initializeChat_loads_history (s : App) (room : ChatRoom.t) (rest : list ChatRoom.t) :
  truthy (username (chat s)) = true ->
  known_rooms s = room :: rest ->
  request_fails 0 s = false ->
  request_fails 1 s = false ->
  let s' := run initializeChat s in
  snapshot s' =
    order_by_created_at
      (filter (fun m => (PublicMessage.room_id m =? ChatRoom.id room)%string)
              (public_messages (supabase s)))
  /\ sorted_by created_at_leb (snapshot s') = true
  /\ (forall m, In m (snapshot s') -> PublicMessage.room_id m = ChatRoom.id room)
  /\ requests (supabase s') =
       requests (supabase s) ++ [SelectRooms DEFAULT_ROOM_SLUG;
                                 SelectMessages (ChatRoom.id room);
                                 Subscribe (topic_of (ChatRoom.id room))]
  /\ toasts s' = toasts s
  /\ isLoading (chat s') = false.
Proof.
  unfold request_fails, known_rooms. simpl. intros Hu Hknown Hok Hok1.
  start_initializeChat Hu. rewrite Hok, Hknown. simpl. rewrite Hok1. simpl.
  unfold snapshot. simpl. rewrite <- !app_assoc. simpl.
  split; [reflexivity |]. split; [apply order_by_created_at_sorted |].
  split; [| repeat split].
  intros m Hin. apply (proj1 (In_order_by_created_at _ _)) in Hin.
  apply filter_In in Hin.
  now apply String.eqb_eq.
Qed.

Lemma X7_initializeChat_loads_history_witness :
  let s := fresh_session "ann" sample_backend in
  truthy (username (chat s)) = true
  /\ known_rooms s = [sample_room]
  /\ request_fails 0 s = false
  /\ request_fails 1 s = false
  /\ sorted_by created_at_leb (snapshot (run initializeChat s)) = true.
Proof.
  repeat (split; [reflexivity |]).
  exact (proj1 (proj2 (X7_initializeChat_loads_history
                         (fresh_session "ann" sample_backend) sample_room []
                         eq_refl eq_refl eq_refl eq_refl))).
Defined.


(** X8: when the room is found but the history request fails, the room
    is kept all the same: the message list is untouched, no channel is
    opened, the load-failure toast is shown, and the composer is
    enabled. *)
Theorem X8_initializeChat_history_failure (s : App) (room : ChatRoom.t) (rest : list ChatRoom.t) :
  truthy (username (chat s)) = true ->
  known_rooms s = room :: rest ->
  request_fails 0 s = false ->
  request_fails 1 s = true ->
  let s' := run initializeChat s in
  defaultRoom (chat s') = Some room
  /\ snapshot s' = snapshot s
  /\ requests (supabase s') =
       requests (supabase s) ++ [SelectRooms DEFAULT_ROOM_SLUG;
                                 SelectMessages (ChatRoom.id room)]
  /\ toasts s' = toasts s ++ [toast_load_failed]
  /\ disabled s' = false.
Proof.
  unfold request_fails, known_rooms. simpl. intros Hu Hknown Hok Hfail.
  start_initializeChat Hu. rewrite Hok, Hknown. simpl. rewrite Hfail. simpl.
  rewrite <- !app_assoc. repeat split.
Qed.

Lemma X8_initializeChat_history_failure_witness :
  truthy (username (chat joining_history_lost)) = true
  /\ known_rooms joining_history_lost = [sample_room]
  /\ request_fails 0 joining_history_lost = false
  /\ request_fails 1 joining_history_lost = true
  /\ disabled (run initializeChat joining_history_lost) = false.
Proof.
  repeat (split; [reflexivity |]).
  exact (proj2 (proj2 (proj2 (proj2
           (X8_initializeChat_history_failure joining_history_lost sample_room []
              eq_refl eq_refl eq_refl eq_refl))))).
Defined.



(* ================================================================== *)
(** ** Reading handlers off their combinators *)
(* ================================================================== *)

Section Combinators.
Variables A B : Type.

Lemma ret_never_throws (a : A) : never_throws (ret a).
Proof. intros s. now exists a. Qed.

Lemma bind_never_throws (c : Task A) (k : A -> Task B) :
  never_throws c -> (forall a, never_throws (k a)) -> never_throws (bind c k).
Proof.
  intros Hc Hk s. unfold bind. destruct (Hc s) as [a Ha].
  destruct (c s) as [r s1]. simpl in Ha. subst r. apply Hk.
Qed.

Lemma try_catch_never_throws (body : Task A) (handler : Error -> Task A) :
  (forall e, never_throws (handler e)) -> never_throws (try_catch body handler).
Proof.
  intros Hh s. unfold try_catch. destruct (body s) as [[a | e] s1].
  - now exists a.
  - apply Hh.
Qed.

Lemma try_finally_never_throws (body : Task A) (cleanup : Task unit) :
  never_throws body -> never_throws cleanup -> never_throws (try_finally body cleanup).
Proof.
  intros Hb Hc s. unfold try_finally. destruct (Hb s) as [a Ha].
  destruct (body s) as [r s1]. simpl in Ha. subst r.
  destruct (Hc s1) as [u Hu]. destruct (cleanup s1) as [r2 s2]. simpl in Hu. subst r2.
  now exists a.
Qed.

Lemma await_never_throws (r : Request) (serve : Backend -> (Error + A) * Backend) :
  never_throws (await r serve).
Proof.
  intros s. unfold await. destruct (exchange r serve (supabase s)) as [resp b].
  now exists resp.
Qed.

Variable O : Type.
Variable obs : App -> O.

Lemma preserves_ret (a : A) : preserves obs (ret a).
Proof. intros s. reflexivity. Qed.

Lemma preserves_throw (e : Error) : preserves obs (@throw A e).
Proof. intros s. reflexivity. Qed.

Lemma preserves_bind (c : Task A) (k : A -> Task B) :
  preserves obs c -> (forall a, preserves obs (k a)) -> preserves obs (bind c k).
Proof.
  intros Hc Hk s. unfold bind. specialize (Hc s).
  destruct (c s) as [[a | e] s1]; simpl in *; [| exact Hc].
  now rewrite Hk.
Qed.

Lemma preserves_try_catch (body : Task A) (handler : Error -> Task A) :
  preserves obs body -> (forall e, preserves obs (handler e)) ->
  preserves obs (try_catch body handler).
Proof.
  intros Hb Hh s. unfold try_catch. specialize (Hb s).
  destruct (body s) as [[a | e] s1]; simpl in *; [exact Hb |].
  now rewrite Hh.
Qed.

Lemma preserves_try_finally (body : Task A) (cleanup : Task unit) :
  preserves obs body -> preserves obs cleanup ->
  preserves obs (try_finally body cleanup).
Proof.
  intros Hb Hc s. unfold try_finally. specialize (Hb s).
  destruct (body s) as [r s1]. specialize (Hc s1).
  destruct (cleanup s1) as [[u | e] s2]; simpl in *; congruence.
Qed.

Lemma preserves_await (r : Request) (serve : Backend -> (Error + A) * Backend) :
  (forall f s, obs (on_supabase f s) = obs s) -> preserves obs (await r serve).
Proof.
  intros H s. unfold await. destruct (exchange r serve (supabase s)). apply H.
Qed.

Lemma preserves_modify (f : App -> App) :
  (forall s, obs (f s) = obs s) -> preserves obs (modify f).
Proof. intros H s. apply H. Qed.

End Combinators.

Lemma modify_never_throws (f : App -> App) : never_throws (modify f).
Proof. intros s. now exists tt. Qed.

Lemma try_finally_last {A : Type} (body : Task A) (f : App -> App) (s : App) :
  run (try_finally body (modify f)) s = f (run body s).
Proof. unfold run, try_finally, modify. destruct (body s). reflexivity. Qed.

Lemma never_throws_unit (c : Task unit) (s : App) :
  never_throws c -> fst (c s) = Normal tt.
Proof. intros H. destruct (H s) as [[] Ha]. exact Ha. Qed.

(** Walks down a handler, leaving what the setters must respect. *)
Ltac preserve :=
  repeat first
    [ progress intros
    | apply preserves_bind | apply preserves_try_catch | apply preserves_try_finally
    | apply preserves_ret | apply preserves_throw
    | apply preserves_await; reflexivity
    | apply preserves_modify; reflexivity
    | match goal with
      | |- preserves _ (if ?b then _ else _) => destruct b
      | |- preserves _ (match ?x with _ => _ end) => destruct x
      end ].

Lemma initializeChat_preserves_username :
  preserves (fun s => username (chat s)) initializeChat.
Proof.
  unfold initializeChat, get, setIsLoading, setDefaultRoom, setMessages, subscribe, toast.
  preserve.
Qed.

(** X9: [initializeChat] never throws.  Without a name it does
    nothing at all; with one, however the requests fare, the spinner is
    gone at the end, so the page shows the messages or the notice of an
    empty room. *)
Theorem X9_initializeChat_always_settles (s : App) :
  fst (initializeChat s) = Normal tt
  /\ (truthy (username (chat s)) = false -> initializeChat s = (Normal tt, s))
  /\ (truthy (username (chat s)) = true ->
      isLoading (chat (run initializeChat s)) = false
      /\ render (run initializeChat s) <> JoinForm
      /\ render (run initializeChat s) <> LoadingIndicator).
Proof.
  split; [| split].
  - apply never_throws_unit. unfold initializeChat.
    apply bind_never_throws; [intros s0; now exists s0 |].
    intros s0. destruct (negb (truthy (username (chat s0)))).
    + apply ret_never_throws.
    + apply try_finally_never_throws; [| apply modify_never_throws].
      apply try_catch_never_throws. intros e. apply modify_never_throws.
  - intros Hu. unfold initializeChat, bind, get. rewrite Hu. reflexivity.
  - intros Hu.
    assert (Hload : isLoading (chat (run initializeChat s)) = false).
    { unfold initializeChat. rewrite run_bind. unfold get. rewrite Hu. simpl negb.
      cbv iota. unfold setIsLoading at 2. now rewrite try_finally_last. }
    pose proof (initializeChat_preserves_username s) as Hname. simpl in Hname.
    fold (run initializeChat s) in Hname.
    split; [exact Hload |].
    unfold render. rewrite Hname, Hu, Hload. simpl.
    split; destruct (Nat.eqb _ _); discriminate.
Qed.

Lemma X9_initializeChat_always_settles_witness :
  truthy (username (chat joining_history_lost)) = true
  /\ isLoading (chat (run initializeChat joining_history_lost)) = false.
Proof.
  split; [reflexivity |].
  exact (proj1 (proj2 (proj2 (X9_initializeChat_always_settles joining_history_lost))
                  eq_refl)).
Defined.


(* ================================================================== *)
(** ** Sending and deleting: the other outcomes *)
(* ================================================================== *)

(** X10: a submission that goes through with an attachment stores one
    row that carries the text as given, blank or not, the flag, the stored
    path and the media type; without an attachment the three attachment
    fields of the row are absent. *)
Theorem X10_sendMessage_row_attachment (text : string) (room : ChatRoom.t) (s : App) :
  defaultRoom (chat s) = Some room ->
  request_fails 0 s = false ->
  (forall info,
      exists row,
        public_messages (supabase (run (sendMessage text (Some info)) s)) =
          public_messages (supabase s) ++ [row]
        /\ PublicMessage.content row = text
        /\ PublicMessage.has_attachment row = Some true
        /\ PublicMessage.attachment_path row = Some (AttachmentInfo.path info)
        /\ PublicMessage.attachment_type row = Some (AttachmentInfo.type info))
  /\ (truthy (trim text) = true ->
      exists row,
        public_messages (supabase (run (sendMessage text None) s)) =
          public_messages (supabase s) ++ [row]
        /\ PublicMessage.content row = text
        /\ PublicMessage.has_attachment row = None
        /\ PublicMessage.attachment_path row = None
        /\ PublicMessage.attachment_type row = None).
Proof.
  unfold request_fails. simpl. intros Hroom Hok. split.
  - intros info. unfold run, sendMessage, bind, get. rewrite Hroom.
    rewrite andb_false_r. simpl.
    unfold try_catch, bind, await, exchange; simpl. rewrite Hok. simpl.
    eexists. repeat split.
  - intros Ht. unfold run, sendMessage, bind, get. rewrite Hroom, Ht. simpl.
    unfold try_catch, bind, await, exchange; simpl. rewrite Hok. simpl.
    eexists. repeat split.
Qed.

Lemma X10_sendMessage_row_attachment_witness :
  defaultRoom (chat joined) = Some sample_room
  /\ request_fails 0 joined = false
  /\ exists row,
       public_messages (supabase (run (sendMessage EmptyString
                          (Some (AttachmentInfo.mk "0-cat.png" "image/png"))) joined)) =
         public_messages (supabase joined) ++ [row]
       /\ PublicMessage.content row = EmptyString
       /\ PublicMessage.has_attachment row = Some true
       /\ PublicMessage.attachment_path row = Some "0-cat.png"
       /\ PublicMessage.attachment_type row = Some "image/png".
Proof.
  repeat (split; [reflexivity |]).
  exact (proj1 (X10_sendMessage_row_attachment EmptyString sample_room joined
                  eq_refl eq_refl)
           (AttachmentInfo.mk "0-cat.png" "image/png")).
Defined.


(** X11: a submission that fails past the guard stores no row and
    emits no event; [sendMessage] shows its failure toast and throws the
    error on to its caller, having sent the one request. *)
Theorem X11_sendMessage_failure (text : string) (info : option AttachmentInfo.t)
    (room : ChatRoom.t) (s : App) :
  defaultRoom (chat s) = Some room ->
  negb (truthy (trim text)) && is_none info = false ->
  request_fails 0 s = true ->
  let s' := run (sendMessage text info) s in
  fst (sendMessage text info s) = Throw network_error
  /\ toasts s' = toasts s ++ [toast_send_failed]
  /\ public_messages (supabase s') = public_messages (supabase s)
  /\ changes (supabase s') = changes (supabase s)
  /\ List.length (requests (supabase s')) = S (List.length (requests (supabase s))).
Proof.
  unfold request_fails. simpl. intros Hroom Hpre Hfail.
  unfold run, sendMessage, bind, get. rewrite Hroom, Hpre. simpl.
  unfold try_catch, bind, await, exchange; simpl. rewrite Hfail.
  destruct info; simpl; rewrite length_app; simpl;
    repeat (split; [reflexivity |]); lia.
Qed.

Lemma X11_sendMessage_failure_witness :
  defaultRoom (chat composing) = Some sample_room
  /\ negb (truthy (trim "hi")) && is_none (@None AttachmentInfo.t) = false
  /\ request_fails 0 composing = true
  /\ toasts (run (sendMessage "hi" None) composing) =
     toasts composing ++ [toast_send_failed].
Proof.
  repeat (split; [reflexivity |]).
  exact (proj1 (proj2 (X11_sendMessage_failure "hi" None sample_room composing
                         eq_refl eq_refl eq_refl))).
Defined.


(** X12: a delete request that fails changes neither the table nor the
    message list; it is the only request sent, the failure toast is shown
    and nothing is thrown. *)
Theorem X12_deleteMessage_failure (messageId : string) (s : App) :
  request_fails 0 s = true ->
  let s' := run (deleteMessage messageId) s in
  fst (deleteMessage messageId s) = Normal tt
  /\ snapshot s' = snapshot s
  /\ public_messages (supabase s') = public_messages (supabase s)
  /\ changes (supabase s') = changes (supabase s)
  /\ requests (supabase s') = requests (supabase s) ++ [DeleteMessage messageId]
  /\ toasts s' = toasts s ++ [toast_delete_failed].
Proof.
  unfold request_fails. simpl. intros Hfail.
  unfold run, deleteMessage, try_catch, bind, await, exchange; simpl.
  rewrite Hfail. simpl. repeat split.
Qed.

Lemma X12_deleteMessage_failure_witness :
  request_fails 0 composing = true
  /\ snapshot (run (deleteMessage "1") composing) = snapshot composing.
Proof.
  split; [reflexivity |].
  exact (proj1 (proj2 (X12_deleteMessage_failure "1" composing eq_refl))).
Defined.


(** X13: after a delete and a re-fetch that both go through, the
    message list holds exactly the rows of the table that belong to the
    room and have another id: entries that were only listed locally are
    gone, rows that had not been listed are there. *)
Theorem X13_deleteMessage_refetch_membership (messageId : string) (s : App) :
  request_fails 0 s = false ->
  request_fails 1 s = false ->
  forall m,
    In m (snapshot (run (deleteMessage messageId) s))
    <-> In m (public_messages (supabase s))
        /\ PublicMessage.room_id m = room_filter s
        /\ PublicMessage.id m <> messageId.
Proof.
  unfold request_fails, room_filter. simpl. intros Hdel Href m.
  unfold run, deleteMessage, try_catch, bind, await, exchange; simpl.
  rewrite Hdel; simpl. rewrite Href; simpl. unfold snapshot; simpl.
  rewrite In_order_by_created_at, !filter_In, negb_true_iff,
    String.eqb_eq, String.eqb_neq.
  tauto.
Qed.

Lemma X13_deleteMessage_refetch_membership_witness :
  request_fails 0 joined = false
  /\ request_fails 1 joined = false
  /\ (In (sample_message "3" T3) (public_messages (supabase joined))
      /\ PublicMessage.room_id (sample_message "3" T3) = room_filter joined
      /\ PublicMessage.id (sample_message "3" T3) <> "1")
  /\ In (sample_message "3" T3) (snapshot (run (deleteMessage "1") joined)).
Proof.
  assert (H : In (sample_message "3" T3) (public_messages (supabase joined))
              /\ PublicMessage.room_id (sample_message "3" T3) = room_filter joined
              /\ PublicMessage.id (sample_message "3" T3) <> "1").
  { split; [right; left; reflexivity |].
    split; [reflexivity | simpl; intros H; discriminate H]. }
  repeat (split; [reflexivity |]). split; [exact H |].
  exact (proj2 (X13_deleteMessage_refetch_membership "1" joined eq_refl eq_refl
                  (sample_message "3" T3)) H).
Defined.


Lemma no_row_with_absent_id (i : string) (l : list PublicMessage.t) :
  ~ In i (ids l) -> filter (fun m => (PublicMessage.id m =? i)%string) l = [].
Proof.
  unfold ids. induction l as [| x l IH]; simpl; intros H; [reflexivity |].
  destruct (String.eqb_spec (PublicMessage.id x) i) as [He | Hne].
  - exfalso. apply H. now left.
  - apply IH. tauto.
Qed.

(** X14: [deleteMessage] never throws, and it reports success whenever
    the delete request goes through, also for an id that no row has: the
    table is then as it was and no change event is emitted. *)
Theorem X14_deleteMessage_reports_success (messageId : string) (s : App) :
  fst (deleteMessage messageId s) = Normal tt
  /\ (request_fails 0 s = false ->
      toasts (run (deleteMessage messageId) s) = toasts s ++ [toast_delete_ok]
      /\ (~ In messageId (ids (public_messages (supabase s))) ->
          public_messages (supabase (run (deleteMessage messageId) s)) =
            public_messages (supabase s)
          /\ changes (supabase (run (deleteMessage messageId) s)) =
             changes (supabase s))).
Proof.
  split.
  - apply never_throws_unit. unfold deleteMessage.
    apply try_catch_never_throws. intros e. apply modify_never_throws.
  - unfold request_fails. simpl. intros Hdel.
    unfold run, deleteMessage, try_catch, bind, await, exchange; simpl.
    rewrite Hdel; simpl.
    destruct (hd false (tl (faults (supabase s)))); simpl;
      (split; [reflexivity |]); intros Habsent;
      pose proof (applyDelete_absent messageId _ Habsent) as Hsame;
      unfold applyDelete in Hsame; rewrite Hsame;
      rewrite (no_row_with_absent_id messageId _ Habsent); simpl;
      now rewrite app_nil_r.
Qed.

Lemma X14_deleteMessage_reports_success_witness :
  request_fails 0 joined = false
  /\ toasts (run (deleteMessage "nobody") joined) = toasts joined ++ [toast_delete_ok].
Proof.
  split; [reflexivity |].
  exact (proj1 (proj2 (X14_deleteMessage_reports_success "nobody" joined) eq_refl)).
Defined.


(* ================================================================== *)
(** ** The composer: the whole of a submission *)
(* ================================================================== *)

(** [handleSubmit] hands [sendMessage] a trimmed text, which
    [sendMessage] trims again: trimming twice is trimming once. *)
Lemma trimStart_head (s : string) (c : ascii) (r : string) :
  trimStart s = String c r -> is_whitespace c = false.
Proof.
  induction s as [| d s IH]; simpl; [discriminate |].
  destruct (is_whitespace d) eqn:E; [exact IH |].
  intros H. injection H as -> _. exact E.
Qed.

Lemma trimEnd_idempotent (s : string) : trimEnd (trimEnd s) = trimEnd s.
Proof.
  induction s as [| c s IH]; [reflexivity |].
  simpl. destruct (trimEnd s) as [| d u] eqn:E.
  - destruct (is_whitespace c) eqn:W; [reflexivity |]. simpl. now rewrite W.
  - change (trimEnd (String c (String d u))) with
      (match trimEnd (String d u) with
       | EmptyString => if is_whitespace c then EmptyString else String c EmptyString
       | String _ _ as r' => String c r'
       end).
    now rewrite IH.
Qed.

Lemma trimEnd_head (c : ascii) (r : string) :
  is_whitespace c = false -> exists r', trimEnd (String c r) = String c r'.
Proof.
  intros W. simpl. destruct (trimEnd r); [rewrite W |]; eexists; reflexivity.
Qed.

Lemma trim_idempotent (s : string) : trim (trim s) = trim s.
Proof.
  unfold trim. destruct (trimStart s) as [| c r] eqn:E; [reflexivity |].
  pose proof (trimStart_head s c r E) as W.
  destruct (trimEnd_head c r W) as [r' Hr]. rewrite Hr.
  simpl trimStart. rewrite W. rewrite <- Hr. apply trimEnd_idempotent.
Qed.

Ltac start_handleSubmit Ha Hs Hd :=
  unfold run, handleSubmit, bind, get; rewrite Ha, Hs, Hd;
  rewrite ?orb_false_r, ?andb_false_r.

(** X15: a submission with a pending file in which the upload and the
    insert both go through sends exactly these two requests; the row asked
    for carries the trimmed draft, the path the storage answered and the
    file's media type; the file is in the bucket; draft and pending file
    are cleared; the only toast is the one for the upload. *)
Theorem X15_handleSubmit_with_attachment (file : File.t) (room : ChatRoom.t) (s : App) :
  attachment (input s) = Some file ->
  isSubmitting (input s) = false ->
  isLoading (chat s) = false ->
  defaultRoom (chat s) = Some room ->
  path_taken (upload_path s file) s = false ->
  request_fails 0 s = false ->
  request_fails 1 s = false ->
  let s' := run handleSubmit s in
  requests (supabase s') =
    requests (supabase s) ++
      [ Upload "chat_attachments" (upload_path s file);
        InsertMessage
          (MessageData.mk (ChatRoom.id room) (username (chat s))
             (trim (message (input s))) (Some true)
             (Some (upload_path s file)) (Some (File.type file))) ]
  /\ chat_attachments (supabase s') =
       chat_attachments (supabase s) ++ [(upload_path s file, file)]
  /\ (exists row,
        public_messages (supabase s') = public_messages (supabase s) ++ [row]
        /\ PublicMessage.attachment_path row = Some (upload_path s file))
  /\ message (input s') = EmptyString
  /\ attachment (input s') = None
  /\ isSubmitting (input s') = false
  /\ isUploading (input s') = false
  /\ toasts s' = toasts s ++ [toast_file_uploaded].
Proof.
  unfold request_fails, path_taken, upload_path. simpl.
  intros Ha Hs Hl Hroom Hfree Hok Hok1.
  assert (Hd : disabled s = false) by (unfold disabled; now rewrite Hl, Hroom).
  start_handleSubmit Ha Hs Hd.
  unfold try_finally, try_catch, bind, await, exchange, Date_now; simpl.
  rewrite Hok. unfold serve_upload; simpl. rewrite Hfree. simpl.
  unfold sendMessage, bind, get; simpl. rewrite Hroom. rewrite andb_false_r. simpl.
  unfold try_catch, bind, await, exchange; simpl. rewrite Hok1. simpl.
  rewrite <- app_assoc. split; [reflexivity |]. split; [reflexivity |].
  split; [eexists; split; reflexivity |]. repeat split.
Qed.

Lemma X15_handleSubmit_with_attachment_witness :
  attachment (input attaching) = Some sample_file
  /\ isSubmitting (input attaching) = false
  /\ isLoading (chat attaching) = false
  /\ defaultRoom (chat attaching) = Some sample_room
  /\ path_taken (upload_path attaching sample_file) attaching = false
  /\ request_fails 0 attaching = false
  /\ request_fails 1 attaching = false
  /\ chat_attachments (supabase (run handleSubmit attaching)) =
     chat_attachments (supabase attaching)
     ++ [(upload_path attaching sample_file, sample_file)].
Proof.
  repeat (split; [reflexivity |]).
  exact (proj1 (proj2 (X15_handleSubmit_with_attachment sample_file sample_room attaching
                         eq_refl eq_refl eq_refl eq_refl eq_refl eq_refl eq_refl))).
Defined.


(** X16: when the upload goes through and the insert then fails, the
    file stays in the bucket with no row pointing at it; draft and pending
    file are kept for another try; the toast of the upload is followed by
    the one of the failed submission; nothing is thrown. *)
Theorem X16_handleSubmit_orphaned_upload (file : File.t) (room : ChatRoom.t) (s : App) :
  attachment (input s) = Some file ->
  isSubmitting (input s) = false ->
  isLoading (chat s) = false ->
  defaultRoom (chat s) = Some room ->
  path_taken (upload_path s file) s = false ->
  request_fails 0 s = false ->
  request_fails 1 s = true ->
  let s' := run handleSubmit s in
  fst (handleSubmit s) = Normal tt
  /\ chat_attachments (supabase s') =
       chat_attachments (supabase s) ++ [(upload_path s file, file)]
  /\ public_messages (supabase s') = public_messages (supabase s)
  /\ message (input s') = message (input s)
  /\ attachment (input s') = Some file
  /\ isSubmitting (input s') = false
  /\ isUploading (input s') = false
  /\ toasts s' = toasts s ++ [toast_file_uploaded; toast_send_failed].
Proof.
  unfold request_fails, path_taken, upload_path. simpl.
  intros Ha Hs Hl Hroom Hfree Hok Hfail.
  assert (Hd : disabled s = false) by (unfold disabled; now rewrite Hl, Hroom).
  start_handleSubmit Ha Hs Hd.
  unfold try_finally, try_catch, bind, await, exchange, Date_now; simpl.
  rewrite Hok. unfold serve_upload; simpl. rewrite Hfree. simpl.
  unfold sendMessage, bind, get; simpl. rewrite Hroom. rewrite andb_false_r. simpl.
  unfold try_catch, bind, await, exchange; simpl. rewrite Hfail. simpl.
  rewrite <- app_assoc, Ha. repeat split.
Qed.

Lemma X16_handleSubmit_orphaned_upload_witness :
  attachment (input attaching_insert_lost) = Some sample_file
  /\ isSubmitting (input attaching_insert_lost) = false
  /\ isLoading (chat attaching_insert_lost) = false
  /\ defaultRoom (chat attaching_insert_lost) = Some sample_room
  /\ path_taken (upload_path attaching_insert_lost sample_file) attaching_insert_lost
     = false
  /\ request_fails 0 attaching_insert_lost = false
  /\ request_fails 1 attaching_insert_lost = true
  /\ fst (handleSubmit attaching_insert_lost) = Normal tt.
Proof.
  repeat (split; [reflexivity |]).
  exact (proj1 (X16_handleSubmit_orphaned_upload sample_file sample_room
                  attaching_insert_lost
                  eq_refl eq_refl eq_refl eq_refl eq_refl eq_refl eq_refl)).
Defined.


(** X17: a submission of text alone that goes through sends one
    request, the insert of a row with the trimmed draft and no attachment
    fields, clears the draft and shows no toast. *)
Theorem X17_handleSubmit_text_only (room : ChatRoom.t) (s : App) :
  attachment (input s) = None ->
  truthy (trim (message (input s))) = true ->
  isSubmitting (input s) = false ->
  isLoading (chat s) = false ->
  defaultRoom (chat s) = Some room ->
  request_fails 0 s = false ->
  let s' := run handleSubmit s in
  requests (supabase s') =
    requests (supabase s) ++
      [ InsertMessage
          (MessageData.mk (ChatRoom.id room) (username (chat s))
             (trim (message (input s))) None None None) ]
  /\ message (input s') = EmptyString
  /\ attachment (input s') = None
  /\ isSubmitting (input s') = false
  /\ toasts s' = toasts s.
Proof.
  unfold request_fails. simpl. intros Ha Ht Hs Hl Hroom Hok.
  assert (Hd : disabled s = false) by (unfold disabled; now rewrite Hl, Hroom).
  unfold run, handleSubmit, bind, get. rewrite Ha, Hs, Hd, Ht. simpl.
  unfold try_finally, try_catch, bind; simpl.
  unfold sendMessage, bind, get; simpl. rewrite Hroom, trim_idempotent, Ht. simpl.
  unfold try_catch, bind, await, exchange; simpl. rewrite Hok. simpl.
  repeat split.
Qed.

Lemma X17_handleSubmit_text_only_witness :
  attachment (input typing) = None
  /\ truthy (trim (message (input typing))) = true
  /\ isSubmitting (input typing) = false
  /\ isLoading (chat typing) = false
  /\ defaultRoom (chat typing) = Some sample_room
  /\ request_fails 0 typing = false
  /\ message (input (run handleSubmit typing)) = EmptyString.
Proof.
  repeat (split; [reflexivity |]).
  exact (proj1 (proj2 (X17_handleSubmit_text_only sample_room typing
                         eq_refl eq_refl eq_refl eq_refl eq_refl eq_refl))).
Defined.


(** X18: while a submission is under way, or while the page is loading
    or has no room, [handleSubmit] does nothing; and [sendMessage] does
    nothing without a room, whatever it is given. *)
Theorem X18_blocked_send_is_dropped (s : App) :
  (isSubmitting (input s) = true \/ disabled s = true ->
   handleSubmit s = (Normal tt, s))
  /\ (defaultRoom (chat s) = None ->
      forall text info, sendMessage text info s = (Normal tt, s)).
Proof.
  split.
  - intros H. unfold handleSubmit, bind, get.
    assert (Hguard : (negb (truthy (trim (message (input s))))
                      && is_none (attachment (input s)))
                     || isSubmitting (input s) || disabled s = true).
    { destruct H as [H | H]; rewrite H; now rewrite ?orb_true_r. }
    now rewrite Hguard.
  - intros Hroom text info. unfold sendMessage, bind, get.
    rewrite Hroom. simpl. now rewrite orb_true_r.
Qed.

Lemma X18_blocked_send_is_dropped_witness :
  let s := on_input (with_message "hi") (fresh_session "ann" sample_backend) in
  (isSubmitting (input s) = true \/ disabled s = true)
  /\ handleSubmit s = (Normal tt, s).
Proof.
  assert (H : isSubmitting (input (on_input (with_message "hi")
                                     (fresh_session "ann" sample_backend))) = true
              \/ disabled (on_input (with_message "hi")
                             (fresh_session "ann" sample_backend)) = true).
  { right. reflexivity. }
  split; [exact H |].
  exact (proj1 (X18_blocked_send_is_dropped
                  (on_input (with_message "hi") (fresh_session "ann" sample_backend)))
           H).
Defined.


Lemma sendMessage_preserves_input (text : string) (info : option AttachmentInfo.t) :
  preserves input (sendMessage text info).
Proof. unfold sendMessage, get, toast. preserve. Qed.

(** X19: [handleSubmit] never throws, whatever the requests do, and it
    does not leave the composer locked: if it was not submitting or
    uploading before, it is not afterwards. *)
Theorem X19_handleSubmit_releases_composer (s : App) :
  fst (handleSubmit s) = Normal tt
  /\ (isSubmitting (input s) = false -> isSubmitting (input (run handleSubmit s)) = false)
  /\ (isUploading (input s) = false -> isUploading (input (run handleSubmit s)) = false).
Proof.
  split; [| split].
  - apply never_throws_unit. unfold handleSubmit.
    apply bind_never_throws; [intros s0; now exists s0 |].
    intros s0. destruct (_ || _ || _).
    + apply ret_never_throws.
    + apply try_finally_never_throws; [| apply modify_never_throws].
      apply try_catch_never_throws. intros e. apply ret_never_throws.
  - intros Hs. unfold handleSubmit. rewrite run_bind. unfold get.
    destruct (_ || _ || _); [exact Hs |].
    unfold setIsSubmitting at 3. now rewrite try_finally_last.
  - intros Hu. unfold handleSubmit. rewrite run_bind. unfold get.
    destruct (_ || _ || _); [exact Hu |].
    unfold setIsSubmitting at 3. rewrite try_finally_last. simpl.
    unfold run, try_catch, bind, setIsSubmitting, modify. simpl.
    destruct (attachment (input s)) as [file |]; simpl.
    + unfold setIsUploading, try_finally, try_catch, bind, modify, Date_now, await.
      simpl. destruct (exchange _ _ _) as [[e | path] b]; simpl; [reflexivity |].
      match goal with
      | |- context [sendMessage ?t ?i ?s0] =>
          pose proof (sendMessage_preserves_input t i s0) as Hin;
          destruct (sendMessage t i s0) as [[[] | e] s2]
      end; simpl in *; now rewrite Hin.
    + match goal with
      | |- context [sendMessage ?t ?i ?s0] =>
          pose proof (sendMessage_preserves_input t i s0) as Hin;
          destruct (sendMessage t i s0) as [[[] | e] s2]
      end; simpl in *; now rewrite Hin.
Qed.

Lemma X19_handleSubmit_releases_composer_witness :
  isUploading (input attaching_insert_lost) = false
  /\ isUploading (input (run handleSubmit attaching_insert_lost)) = false.
Proof.
  split; [reflexivity |].
  exact (proj2 (proj2 (X19_handleSubmit_releases_composer attaching_insert_lost)) eq_refl).
Defined.


(** X20: whenever the submit button is enabled, [handleSubmit] does
    send something: the first request it makes is the upload of the
    pending file or, without one, the insert of the message. *)
Theorem X20_enabled_submit_sends (s : App) :
  submitDisabled s = false ->
  exists first later,
    requests (supabase (run handleSubmit s)) =
      requests (supabase s) ++ first :: later
    /\ match attachment (input s), first with
       | Some file, Upload bucket path =>
           bucket = "chat_attachments" /\ path = upload_path s file
       | None, InsertMessage row =>
           MessageData.content row = trim (message (input s))
       | _, _ => False
       end.
Proof.
  unfold submitDisabled. intros H.
  apply orb_false_iff in H. destruct H as [H _].
  apply orb_false_iff in H. destruct H as [H _].
  apply orb_false_iff in H. destruct H as [H _].
  apply orb_false_iff in H. destruct H as [H Hd].
  apply orb_false_iff in H. destruct H as [Hg Hs].
  pose proof Hd as Hd'. unfold disabled in Hd'.
  apply orb_false_iff in Hd'. destruct Hd' as [_ Hroom].
  destruct (defaultRoom (chat s)) as [room |] eqn:Er; [clear Hroom | discriminate].
  unfold run, handleSubmit, bind, get. rewrite Hg, Hs, Hd. simpl.
  destruct (attachment (input s)) as [file |] eqn:Ea.
  - unfold try_finally, try_catch, bind, await, exchange, Date_now; simpl.
    destruct (hd false (faults (supabase s))); simpl.
    + exists (Upload "chat_attachments" (upload_path s file)), []. now split.
    + unfold serve_upload. simpl.
      destruct (existsb _ _); simpl.
      * exists (Upload "chat_attachments" (upload_path s file)), []. now split.
      * unfold sendMessage, bind, get; simpl. rewrite Er, andb_false_r. simpl.
        unfold try_catch, bind, await, exchange; simpl.
        destruct (hd false (tl (faults (supabase s)))); simpl;
          rewrite <- app_assoc; simpl;
          eexists (Upload "chat_attachments" (upload_path s file)), [_];
          now split.
  - simpl in Hg. rewrite andb_true_r in Hg. apply negb_false_iff in Hg.
    unfold try_finally, try_catch, bind; simpl.
    unfold sendMessage, bind, get; simpl. rewrite Er, trim_idempotent, Hg. simpl.
    unfold try_catch, bind, await, exchange; simpl.
    destruct (hd false (faults (supabase s))); simpl;
      eexists (InsertMessage _), []; now split.
Qed.

Lemma X20_enabled_submit_sends_witness :
  submitDisabled typing = false
  /\ exists first later,
       requests (supabase (run handleSubmit typing)) =
         requests (supabase typing) ++ first :: later
       /\ match attachment (input typing), first with
          | Some file, Upload bucket path =>
              bucket = "chat_attachments" /\ path = upload_path typing file
          | None, InsertMessage row =>
              MessageData.content row = trim (message (input typing))
          | _, _ => False
          end.
Proof.
  split; [reflexivity |].
  exact (X20_enabled_submit_sends typing eq_refl).
Defined.



(* ================================================================== *)
(** ** Voice input: what a recording can and cannot do *)
(* ================================================================== *)

Ltac audio_cases inference :=
  destruct inference as [e | [[| [t] items] | [t] |]];
  try destruct (truthy t) eqn:?.

(** X21: whatever the recogniser does, [processAudio] never throws and
    changes two things only: it adds the processing toast and one more,
    and it may add to the end of the draft; what was typed stays in front,
    and the service, the page, the pending file and the flags of the
    composer are as they were. *)
Theorem X21_processAudio_only_extends_draft (inference : Error + AsrOutput) (s : App) :
  let s' := run (processAudio inference) s in
  fst (processAudio inference s) = Normal tt
  /\ supabase s' = supabase s
  /\ chat s' = chat s
  /\ input s' = with_message (message (input s')) (input s)
  /\ (exists spoken, message (input s') = (message (input s) ++ spoken)%string)
  /\ (exists notice, toasts s' = toasts s ++ [toast_processing; notice]).
Proof.
  assert (Hnil : forall d : string, d = (d ++ EmptyString)%string).
  { induction d as [| c d IH]; [reflexivity |]. simpl. now rewrite <- IH. }
  assert (Heta : forall i : InputState, i = with_message (message i) i).
  { intros []. reflexivity. }
  unfold run.
  audio_cases inference;
    unfold processAudio, try_catch, bind, toast, setMessage, modify, ret, throw;
    simpl; rewrite ?Heqb; simpl;
    (split; [reflexivity |]); (split; [reflexivity |]); (split; [reflexivity |]);
    (split; [try reflexivity; apply Heta |]);
    rewrite <- ?app_assoc; simpl;
    (split; [| eexists; reflexivity]);
    first [ eexists; reflexivity | exists EmptyString; apply Hnil ].
Qed.

(** X22: when a recording stops, the handler ends with the recording
    and processing flags down and without throwing, whatever became of the
    recognition; draft and toasts are those of [processAudio], so the
    handler's own failure toast is never shown. *)
Theorem X22_onstop_settles (inference : Error + AsrOutput) (s : App) :
  let s' := run (onstop inference) s in
  fst (onstop inference s) = Normal tt
  /\ isRecording (input s') = false
  /\ isProcessing (input s') = false
  /\ message (input s') = message (input (run (processAudio inference) s))
  /\ toasts s' = toasts (run (processAudio inference) s)
  /\ (~ In toast_process_failed (toasts s) -> ~ In toast_process_failed (toasts s')).
Proof.
  unfold run.
  audio_cases inference;
    unfold onstop, try_finally, processAudio, try_catch, bind, toast, setMessage,
      setIsRecording, setIsProcessing, modify, ret, throw;
    simpl; rewrite ?Heqb; simpl;
    repeat (split; [reflexivity |]);
    intros Hold Hin;
    repeat (apply in_app_or in Hin; destruct Hin as [Hin | [Hin | []]];
            [| discriminate Hin]);
    exact (Hold Hin).
Qed.

Lemma X22_onstop_settles_witness :
  ~ In toast_process_failed (toasts joined)
  /\ ~ In toast_process_failed
         (toasts (run (onstop (inl network_error)) joined)).
Proof.
  assert (H : ~ In toast_process_failed (toasts joined)).
  { simpl. intros []. }
  split; [exact H |].
  exact (proj2 (proj2 (proj2 (proj2 (proj2
           (X22_onstop_settles (inl network_error) joined))))) H).
Defined.


(* ================================================================== *)
(** ** The attachment picker and the message on the page *)
(* ================================================================== *)

(** X23: choosing a file that is accepted and then removing it puts
    the session back exactly as it was with no file pending. *)
Theorem X23_choose_then_remove (file : File.t) (s : App) :
  attachment (input s) = None ->
  File.size file <= 10 * 1024 * 1024 ->
  includes allowedTypes (File.type file) = true ->
  run removeAttachment (run (handleFileInputChange (Some file)) s) = s.
Proof.
  intros Hnone Hsize Htype.
  unfold run, handleFileInputChange.
  apply N.ltb_ge in Hsize. rewrite Hsize, Htype. simpl.
  destruct s as [b c [m sb rc pr up a] t n]. simpl in Hnone. subst a. reflexivity.
Qed.

Lemma X23_choose_then_remove_witness :
  attachment (input joined) = None
  /\ File.size sample_file <= 10 * 1024 * 1024
  /\ includes allowedTypes (File.type sample_file) = true
  /\ run removeAttachment (run (handleFileInputChange (Some sample_file)) joined)
     = joined.
Proof.
  assert (H : File.size sample_file <= 10 * 1024 * 1024).
  { intros H. discriminate H. }
  split; [reflexivity |]. split; [exact H |]. split; [reflexivity |].
  exact (X23_choose_then_remove sample_file joined eq_refl H eq_refl).
Defined.


Section Rendering.
Variable getPublicUrl : string -> string.

Lemma renderAttachment_of_allowed (m : PublicMessage.t) (path t : string) :
  PublicMessage.has_attachment m = Some true ->
  PublicMessage.attachment_path m = Some path ->
  truthy path = true ->
  truthy (getPublicUrl path) = true ->
  PublicMessage.attachment_type m = Some t ->
  includes allowedTypes t = true ->
  renderAttachment getPublicUrl m =
    Some (if startsWith t "image/" then ImageLink (getPublicUrl path)
          else if (t =? "application/pdf")%string then PdfLink (getPublicUrl path)
          else DocumentLink (getPublicUrl path)).
Proof.
  intros Hflag Hpath Htp Hurl Htype Hallowed.
  unfold renderAttachment, attachmentUrl, getAttachmentUrl, isImage, isPdf, isDocument.
  rewrite Hflag, Hpath, Htp, Htype, Hurl. simpl negb. cbv iota.
  apply includes_In in Hallowed. unfold allowedTypes in Hallowed. simpl in Hallowed.
  repeat (destruct Hallowed as [<- | Hallowed]; [reflexivity |]).
  destruct Hallowed.
Qed.

(** X24: a message whose media type passes the picker's list is never
    shown as a bare download: the four image types are shown as an image,
    the PDF type as a PDF link, the three others as a document link; and a
    message without the attachment flag shows no attachment at all. *)
Theorem X24_accepted_types_have_their_view (m : PublicMessage.t) (path t : string) :
  PublicMessage.attachment_path m = Some path ->
  truthy path = true ->
  truthy (getPublicUrl path) = true ->
  PublicMessage.attachment_type m = Some t ->
  includes allowedTypes t = true ->
  (PublicMessage.has_attachment m = Some true ->
   (In t ["image/jpeg"; "image/png"; "image/gif"; "image/webp"] ->
    renderAttachment getPublicUrl m = Some (ImageLink (getPublicUrl path)))
   /\ (t = "application/pdf" ->
       renderAttachment getPublicUrl m = Some (PdfLink (getPublicUrl path)))
   /\ (In t ["text/plain"; "application/msword";
             "application/vnd.openxmlformats-officedocument.wordprocessingml.document"] ->
       renderAttachment getPublicUrl m = Some (DocumentLink (getPublicUrl path))))
  /\ (PublicMessage.has_attachment m <> Some true ->
      renderAttachment getPublicUrl m = None).
Proof.
  intros Hpath Htp Hurl Htype Hallowed. split.
  - intros Hflag.
    rewrite (renderAttachment_of_allowed m path t Hflag Hpath Htp Hurl Htype Hallowed).
    split; [| split]; intros Hin; simpl in Hin.
    + repeat (destruct Hin as [<- | Hin]; [reflexivity |]). destruct Hin.
    + now subst t.
    + repeat (destruct Hin as [<- | Hin]; [reflexivity |]). destruct Hin.
  - intros Hflag. unfold renderAttachment.
    destruct (PublicMessage.has_attachment m) as [[|] |]; try reflexivity.
    now elim Hflag.
Qed.

End Rendering.

Lemma X24_accepted_types_have_their_view_witness :
  PublicMessage.attachment_path sample_row = Some "0-cat.png"
  /\ truthy "0-cat.png" = true
  /\ truthy (sample_url "0-cat.png") = true
  /\ PublicMessage.attachment_type sample_row = Some "image/png"
  /\ includes allowedTypes "image/png" = true
  /\ PublicMessage.has_attachment sample_row = Some true
  /\ In "image/png" ["image/jpeg"; "image/png"; "image/gif"; "image/webp"]
  /\ renderAttachment sample_url sample_row = Some (ImageLink (sample_url "0-cat.png")).
Proof.
  assert (H : In "image/png" ["image/jpeg"; "image/png"; "image/gif"; "image/webp"]).
  { right. left. reflexivity. }
  repeat (split; [reflexivity |]). split; [exact H |].
  exact (proj1 (proj1 (X24_accepted_types_have_their_view sample_url sample_row
                         "0-cat.png" "image/png"
                         eq_refl eq_refl eq_refl eq_refl eq_refl) eq_refl) H).
Defined.


Lemma hash_from (l : list ascii) (a : N) :
  fold_left (fun acc char => acc + N_of_ascii char) l a =
  a + fold_left (fun acc char => acc + N_of_ascii char) l 0.
Proof.
  revert a. induction l as [| c l IH]; intros a; simpl.
  - now rewrite N.add_0_r.
  - rewrite IH, (IH (N_of_ascii c)). now rewrite N.add_assoc.
Qed.

Lemma hash_permutation (l l' : list ascii) :
  Permutation l l' ->
  fold_left (fun acc char => acc + N_of_ascii char) l 0 =
  fold_left (fun acc char => acc + N_of_ascii char) l' 0.
Proof.
  induction 1 as [| c l l' _ IH | c d l | l l' l'' _ IH1 _ IH2]; simpl.
  - reflexivity.
  - rewrite hash_from, IH, <- hash_from. reflexivity.
  - rewrite (hash_from l (N_of_ascii d + N_of_ascii c)),
      (hash_from l (N_of_ascii c + N_of_ascii d)).
    now rewrite (N.add_comm (N_of_ascii d)).
  - now rewrite IH1.
Qed.

(** X25: every name gets a colour, and one of the seven of the
    palette; two names made of the same characters in any order get the
    same colour. *)
Theorem X25_getUserColor_palette (name : string) :
  (exists c, getUserColor name = Some c /\ In c colors)
  /\ (forall other,
        Permutation (list_ascii_of_string name) (list_ascii_of_string other) ->
        getUserColor other = getUserColor name).
Proof.
  split.
  - unfold getUserColor.
    destruct (nth_error colors (N.to_nat (hash name mod N.of_nat (List.length colors))))
      as [c |] eqn:E.
    + exists c. split; [reflexivity |]. now apply nth_error_In in E.
    + exfalso. apply nth_error_None in E.
      assert (Hlt : hash name mod N.of_nat (List.length colors)
                    < N.of_nat (List.length colors)).
      { apply N.mod_lt. discriminate. }
      lia.
  - intros other Hperm. unfold getUserColor, hash.
    now rewrite (hash_permutation _ _ Hperm).
Qed.

Lemma X25_getUserColor_palette_witness :
  Permutation (list_ascii_of_string "ann") (list_ascii_of_string "nan")
  /\ getUserColor "nan" = getUserColor "ann".
Proof.
  assert (H : Permutation (list_ascii_of_string "ann") (list_ascii_of_string "nan")).
  { simpl. apply perm_swap. }
  split; [exact H |].
  exact (proj2 (X25_getUserColor_palette "ann") "nan" H).
Defined.


(** X26: the row a session stores carries that session's name, so the
    session that sent it shows the delete button on it and a session under
    any other name does not; and no button is shown where no delete
    handler is passed. *)
Theorem X26_own_rows_show_delete (text : string) (info : option AttachmentInfo.t)
    (room : ChatRoom.t) (s : App) :
  defaultRoom (chat s) = Some room ->
  negb (truthy (trim text)) && is_none info = false ->
  request_fails 0 s = false ->
  exists row,
    changes (supabase (run (sendMessage text info) s)) =
      changes (supabase s) ++ [INSERT row]
    /\ isCurrentUser row (username (chat s)) = true
    /\ deleteControl row (username (chat s)) true = true
    /\ (forall other, other <> username (chat s) ->
                      deleteControl row other true = false)
    /\ (forall anyone, deleteControl row anyone false = false).
Proof.
  unfold request_fails. simpl. intros Hroom Hpre Hok.
  assert (Hrow : exists row,
             changes (supabase (run (sendMessage text info) s)) =
               changes (supabase s) ++ [INSERT row]
             /\ PublicMessage.sender_name row = username (chat s)).
  { unfold run, sendMessage, bind, get. rewrite Hroom, Hpre. simpl.
    unfold try_catch, bind, await, exchange; simpl. rewrite Hok.
    destruct info; simpl; eexists; split; reflexivity. }
  destruct Hrow as [row [Hch Hname]].
  exists row. unfold deleteControl, isCurrentUser. rewrite Hname.
  split; [exact Hch |]. rewrite String.eqb_refl.
  split; [reflexivity |]. split; [reflexivity |]. split.
  - intros other Hne. apply not_eq_sym in Hne.
    apply String.eqb_neq in Hne. now rewrite Hne.
  - intros anyone. apply andb_false_r.
Qed.

Lemma X26_own_rows_show_delete_witness :
  defaultRoom (chat joined) = Some sample_room
  /\ negb (truthy (trim "hi")) && is_none (@None AttachmentInfo.t) = false
  /\ request_fails 0 joined = false
  /\ exists row,
       changes (supabase (run (sendMessage "hi" None) joined)) =
         changes (supabase joined) ++ [INSERT row]
       /\ isCurrentUser row (username (chat joined)) = true
       /\ deleteControl row (username (chat joined)) true = true
       /\ (forall other, other <> username (chat joined) ->
                         deleteControl row other true = false)
       /\ (forall anyone, deleteControl row anyone false = false).
Proof.
  repeat (split; [reflexivity |]).
  exact (X26_own_rows_show_delete "hi" None sample_room joined eq_refl eq_refl eq_refl).
Defined.


Lemma upload_path_truthy (s : App) (file : File.t) :
  truthy (upload_path s file) = true.
Proof.
  unfold upload_path. destruct (decimal (now s)); reflexivity.
Qed.

(** X27: a file that passed the picker's list and was sent is shown in
    its own view once the inserted row comes back: the row of the insert
    event renders as an image, a PDF link or a document link on the stored
    path, not as a bare download. *)
Theorem X27_sent_attachment_has_its_view
    (getPublicUrl : string -> string) (file : File.t) (room : ChatRoom.t) (s : App) :
  attachment (input s) = Some file ->
  includes allowedTypes (File.type file) = true ->
  isSubmitting (input s) = false ->
  isLoading (chat s) = false ->
  defaultRoom (chat s) = Some room ->
  path_taken (upload_path s file) s = false ->
  request_fails 0 s = false ->
  request_fails 1 s = false ->
  truthy (getPublicUrl (upload_path s file)) = true ->
  exists row,
    changes (supabase (run handleSubmit s)) = changes (supabase s) ++ [INSERT row]
    /\ renderAttachment getPublicUrl row =
       Some (if startsWith (File.type file) "image/"
             then ImageLink (getPublicUrl (upload_path s file))
             else if (File.type file =? "application/pdf")%string
             then PdfLink (getPublicUrl (upload_path s file))
             else DocumentLink (getPublicUrl (upload_path s file))).
Proof.
  intros Ha Htype Hs Hl Hroom Hfree Hok Hok1 Hurl.
  assert (Hrow : exists row,
             changes (supabase (run handleSubmit s)) = changes (supabase s) ++ [INSERT row]
             /\ PublicMessage.has_attachment row = Some true
             /\ PublicMessage.attachment_path row = Some (upload_path s file)
             /\ PublicMessage.attachment_type row = Some (File.type file)).
  { revert Hfree Hok Hok1. unfold request_fails, path_taken, upload_path. simpl.
    intros Hfree Hok Hok1.
    assert (Hd : disabled s = false) by (unfold disabled; now rewrite Hl, Hroom).
    start_handleSubmit Ha Hs Hd.
    unfold try_finally, try_catch, bind, await, exchange, Date_now; simpl.
    rewrite Hok. unfold serve_upload; simpl. rewrite Hfree. simpl.
    unfold sendMessage, bind, get; simpl. rewrite Hroom. rewrite andb_false_r. simpl.
    unfold try_catch, bind, await, exchange; simpl. rewrite Hok1. simpl.
    eexists. repeat split. }
  destruct Hrow as [row [Hch [Hflag [Hpath Hty]]]].
  exists row. split; [exact Hch |].
  exact (renderAttachment_of_allowed getPublicUrl row (upload_path s file)
           (File.type file) Hflag Hpath (upload_path_truthy s file) Hurl Hty Htype).
Qed.

Lemma X27_sent_attachment_has_its_view_witness :
  attachment (input attaching) = Some sample_file
  /\ includes allowedTypes (File.type sample_file) = true
  /\ isSubmitting (input attaching) = false
  /\ isLoading (chat attaching) = false
  /\ defaultRoom (chat attaching) = Some sample_room
  /\ path_taken (upload_path attaching sample_file) attaching = false
  /\ request_fails 0 attaching = false
  /\ request_fails 1 attaching = false
  /\ truthy (sample_url (upload_path attaching sample_file)) = true
  /\ exists row,
       changes (supabase (run handleSubmit attaching)) =
         changes (supabase attaching) ++ [INSERT row]
       /\ renderAttachment sample_url row =
          Some (ImageLink (sample_url (upload_path attaching sample_file))).
Proof.
  repeat (split; [reflexivity |]).
  exact (X27_sent_attachment_has_its_view sample_url sample_file sample_room attaching
           eq_refl eq_refl eq_refl eq_refl eq_refl eq_refl eq_refl eq_refl eq_refl).
Defined.


(* ================================================================== *)
(** ** Joining under a name *)
(* ================================================================== *)

Lemma getItem_setItem (key value : string) (st : Storage) :
  getItem key (setItem key value st) = Some value.
Proof. unfold getItem, setItem. simpl. now rewrite String.eqb_refl. Qed.

(** X28: a name that is not blank is taken in its trimmed form, shown
    at once and stored; after the page is loaded anew the mount effect
    finds it, so the visitor is in under the same name and is not asked
    again. *)
Theorem X28_join_survives_reload (name : string) (p : Page) :
  truthy (trim name) = true ->
  let p' := UsernameForm.handleSubmit name p in
  username (chat (app p')) = trim name
  /\ toasts (app p') = toasts (app p)
  /\ getItem "chatUsername" (localStorage p') = Some (trim name)
  /\ username (chat (app (restoreUsername (reload p')))) = trim name
  /\ render (app p') <> JoinForm
  /\ render (app (restoreUsername (reload p'))) = LoadingIndicator.
Proof.
  intros Ht. unfold UsernameForm.handleSubmit. rewrite Ht. simpl.
  split; [reflexivity |]. split; [reflexivity |].
  split; [apply getItem_setItem |].
  unfold restoreUsername, reload. simpl localStorage.
  rewrite getItem_setItem, Ht. simpl.
  split; [reflexivity |]. unfold render. simpl. rewrite Ht. simpl.
  split; [| reflexivity].
  destruct (isLoading (chat (app p))); [discriminate |].
  destruct (Nat.eqb _ _); discriminate.
Qed.

Lemma X28_join_survives_reload_witness :
  truthy (trim padded_name) = true
  /\ username (chat (app (restoreUsername
                            (reload (UsernameForm.handleSubmit padded_name sample_page)))))
     = trim padded_name.
Proof.
  split; [reflexivity |].
  exact (proj1 (proj2 (proj2 (proj2
           (X28_join_survives_reload padded_name sample_page eq_refl))))).
Defined.


(** X29: a blank name is turned away: a toast says so, no name is set
    or stored, and a page loaded afterwards with no stored name still
    shows the name form. *)
Theorem X29_blank_name_is_turned_away (name : string) (p : Page) :
  trim name = EmptyString ->
  let p' := UsernameForm.handleSubmit name p in
  toasts (app p') = toasts (app p) ++ [toast_username_required]
  /\ chat (app p') = chat (app p)
  /\ localStorage p' = localStorage p
  /\ (getItem "chatUsername" (localStorage p) = None ->
      restoreUsername (reload p') = reload p'
      /\ render (app (restoreUsername (reload p'))) = JoinForm).
Proof.
  intros Hblank. unfold UsernameForm.handleSubmit. rewrite Hblank. simpl.
  repeat (split; [reflexivity |]).
  intros Hnone. unfold restoreUsername, reload. simpl. rewrite Hnone.
  split; reflexivity.
Qed.

Lemma X29_blank_name_is_turned_away_witness :
  trim blank_text = EmptyString
  /\ getItem "chatUsername" (localStorage sample_page) = None
  /\ render (app (restoreUsername
                    (reload (UsernameForm.handleSubmit blank_text sample_page))))
     = JoinForm.
Proof.
  repeat (split; [reflexivity |]).
  exact (proj2 (proj2 (proj2 (proj2
           (X29_blank_name_is_turned_away blank_text sample_page eq_refl))) eq_refl)).
Defined.

